(** * Vehicle price lookup: the matcher of [onPredict]

    A shallow embedding of the record-matching code of the two variants of
    [app.js] (the plain one and the one that also loads label mappings), and
    the properties of the matcher stated over it.

    JavaScript numbers are IEEE 754 binary64 values, which is what Rocq's
    primitive [float] is: [+], [-], [*], [/], [abs], [<?] and [=?] below are
    the operations the script executes, rounding included.

    The page itself is not modelled: the handler is given the values it
    reads from the form and the rows of [DATA], and what it would write to
    the page is its result. *)

From Stdlib Require Import Floats ZArith List String Ascii Bool Lia.
Import ListNotations.

Local Open Scope string_scope.
Local Open Scope list_scope.
Local Open Scope float_scope.
Set Warnings "-inexact-float".

(** ** JavaScript values and operators *)

Module JS.

(** Primitive values, as they come out of [JSON.parse] or of a DOM
    property. [JUndefined] is what reading an absent key gives. *)
Inductive jsval : Type :=
| JUndefined
| JNull
| JBool (b : bool)
| JNum (x : float)
| JStr (s : string).

(** [a === b] on primitives: no coercion; on numbers it is the IEEE
    comparison, so [NaN === NaN] is false and [0 === -0] is true. *)
Definition strict_eq (a b : jsval) : bool :=
  match a, b with
  | JUndefined, JUndefined => true
  | JNull, JNull => true
  | JBool x, JBool y => Bool.eqb x y
  | JNum x, JNum y => (x =? y)
  | JStr s, JStr t => String.eqb s t
  | _, _ => false
  end.

(** [a !== b] *)
Definition strict_neq (a b : jsval) : bool := negb (strict_eq a b).

(** ToBoolean on a number: [0], [-0] and [NaN] are falsy. *)
Definition truthy_num (x : float) : bool := negb ((x =? 0) || is_nan x).

(** [x || d] where [x] and [d] are numbers. *)
Definition or_num (x d : float) : float := if truthy_num x then x else d.

Definition Infinity : float := infinity.
Definition NaN : float := nan.

End JS.
Import JS.

(** ** Data model *)

(** One element of [DATA.rows]. The fields the script only compares with
    [===] hold any primitive; the fields it does arithmetic on are numbers.
    [r_Production_Year] is the key ['Production Year'], and so on. *)
Record Row : Type := mkRow {
  r_Manufacturer : jsval;
  r_Model : jsval;
  r_Production_Year : float;
  r_Category : jsval;
  r_Leather_Interior : jsval;
  r_Fuel_Type : jsval;
  r_Engine_Volume : float;
  r_Mileage : float;
  r_Gearbox_Type : jsval;
  r_Drive_Wheels : jsval;
  r_Doors : jsval;
  r_Wheel : jsval;
  r_Airbags : float;
  predicted_price : float
}.

(** The object [q] built at the head of [onPredict]. Its year is stored
    under the key [Production_Year]. *)
Record Query : Type := mkQuery {
  q_Manufacturer : jsval;
  q_Model : jsval;
  q_Production_Year : float;
  q_Category : jsval;
  q_Leather_Interior : jsval;
  q_Fuel_Type : jsval;
  q_Engine_Volume : float;
  q_Mileage : float;
  q_Gearbox_Type : jsval;
  q_Drive_Wheels : jsval;
  q_Doors : jsval;
  q_Wheel : jsval;
  q_Airbags : float
}.

(** ** The two passes *)

(** The arrow function given to [rows.find]. *)
Definition exactPredicate (q : Query) (r : Row) : bool :=
  strict_eq (r_Manufacturer r) (q_Manufacturer q) &&
  strict_eq (r_Model r) (q_Model q) &&
  (r_Production_Year r =? q_Production_Year q) &&
  strict_eq (r_Category r) (q_Category q) &&
  strict_eq (r_Leather_Interior r) (q_Leather_Interior q) &&
  strict_eq (r_Fuel_Type r) (q_Fuel_Type q) &&
  strict_eq (r_Gearbox_Type r) (q_Gearbox_Type q) &&
  strict_eq (r_Drive_Wheels r) (q_Drive_Wheels q) &&
  strict_eq (r_Doors r) (q_Doors q) &&
  strict_eq (r_Wheel r) (q_Wheel q) &&
  (r_Airbags r =? q_Airbags q) &&
  (abs (r_Engine_Volume r - q_Engine_Volume q) <? 0.001) &&
  (r_Mileage r =? q_Mileage q).

Definition engineVolWeight : float := 2.
Definition mileageWeight : float := 1.
Definition yearWeight : float := 3.
Definition airbagsWeight : float := 1.

Definition engineDiff (q : Query) (r : Row) : float :=
  abs (r_Engine_Volume r - q_Engine_Volume q) / or_num (q_Engine_Volume q) 1.

Definition mileageDiff (q : Query) (r : Row) : float :=
  abs (r_Mileage r - q_Mileage q) / or_num (q_Mileage q) 1.

Definition yearDiff (q : Query) (r : Row) : float :=
  abs (r_Production_Year r - q_Production_Year q) / 10.

Definition airbagsDiff (q : Query) (r : Row) : float :=
  abs (r_Airbags r - q_Airbags q) / or_num (q_Airbags q) 1.

(** The value of [score] at the end of one iteration of the loop:
    [let score = 0], seven conditional [score += w], then one
    [score += e + m + y + a]. *)
Definition score (q : Query) (r : Row) : float :=
  let score := 0 in
  let score :=
    if strict_neq (r_Manufacturer r) (q_Manufacturer q) then score + 5 else score in
  let score :=
    if strict_neq (r_Model r) (q_Model q) then score + 5 else score in
  let score :=
    if strict_neq (r_Category r) (q_Category q) then score + 3 else score in
  let score :=
    if strict_neq (r_Fuel_Type r) (q_Fuel_Type q) then score + 3 else score in
  let score :=
    if strict_neq (r_Gearbox_Type r) (q_Gearbox_Type q) then score + 2 else score in
  let score :=
    if strict_neq (r_Drive_Wheels r) (q_Drive_Wheels q) then score + 2 else score in
  let score :=
    if strict_neq (r_Leather_Interior r) (q_Leather_Interior q) then score + 1 else score in
  score + (engineDiff q r * engineVolWeight + mileageDiff q r * mileageWeight
           + yearDiff q r * yearWeight + airbagsDiff q r * airbagsWeight).

(** One iteration of [for (const r of rows)] on the pair [(best, bestScore)]. *)
Definition step (q : Query) (acc : option Row * float) (r : Row) : option Row * float :=
  if score q r <? snd acc then (Some r, score q r) else acc.

(** [(best, bestScore)] when the loop ends. *)
Definition nearest (q : Query) (rows : list Row) : option Row * float :=
  fold_left (step q) rows (None, Infinity).

(** ** Variables, scopes and exceptions

    The two variants differ in where [bestScore] is declared, so the model
    keeps the scope chain of the running code: a [let] binds in the innermost
    frame, a block pushes a frame and drops it at its closing brace, and an
    identifier that no frame binds raises [ReferenceError]. *)

Module Scope.

(** What a variable of [onPredict] can hold. [BOther] stands for the values
    the matcher never inspects (functions, the [DATA] and [STATS] objects). *)
Inductive binding : Type :=
| BUndefined
| BNull
| BRow (r : Row)
| BNum (x : float)
| BOther.

Definition frame : Type := list (string * binding).
Definition scopes : Type := list frame.

Inductive js_error : Type :=
| ReferenceError (x : string).

Inductive result (A : Type) : Type :=
| Ok (a : A) (s : scopes)
| Throw (e : js_error).
Arguments Ok {A} a s.
Arguments Throw {A} e.

Definition M (A : Type) : Type := scopes -> result A.

Definition ret {A} (a : A) : M A := fun s => Ok a s.

Definition bind {A B} (m : M A) (k : A -> M B) : M B :=
  fun s => match m s with
           | Ok a s' => k a s'
           | Throw e => Throw e
           end.

Fixpoint lookup_frame (x : string) (f : frame) : option binding :=
  match f with
  | [] => None
  | (y, v) :: f' => if String.eqb x y then Some v else lookup_frame x f'
  end.

Fixpoint lookup (x : string) (s : scopes) : option binding :=
  match s with
  | [] => None
  | f :: s' =>
      match lookup_frame x f with
      | Some v => Some v
      | None => lookup x s'
      end
  end.

Fixpoint update_frame (x : string) (v : binding) (f : frame) : option frame :=
  match f with
  | [] => None
  | (y, w) :: f' =>
      if String.eqb x y then Some ((y, v) :: f')
      else option_map (cons (y, w)) (update_frame x v f')
  end.

Fixpoint update (x : string) (v : binding) (s : scopes) : option scopes :=
  match s with
  | [] => None
  | f :: s' =>
      match update_frame x v f with
      | Some f' => Some (f' :: s')
      | None => option_map (cons f) (update x v s')
      end
  end.

(** [let x = v;] *)
Definition declare (x : string) (v : binding) : M unit :=
  fun s => match s with
           | f :: s' => Ok tt (((x, v) :: f) :: s')
           | [] => Ok tt [[(x, v)]]
           end.

(** Reading the identifier [x]. *)
Definition get (x : string) : M binding :=
  fun s => match lookup x s with
           | Some v => Ok v s
           | None => Throw (ReferenceError x)
           end.

(** [x = v;] for a declared [x]. Neither variant assigns a name it has
    not declared, so what an undeclared target does is never observed. *)
Definition set (x : string) (v : binding) : M unit :=
  fun s => match update x v s with
           | Some s' => Ok tt s'
           | None => Throw (ReferenceError x)
           end.

(** [{ body }]: the frame of the block is dropped at the closing brace. *)
Definition block {A} (body : M A) : M A :=
  fun s => match body ([] :: s) with
           | Ok a s' => Ok a (tl s')
           | Throw e => Throw e
           end.

(** ToBoolean *)
Definition truthy (v : binding) : bool :=
  match v with
  | BUndefined | BNull => false
  | BNum x => truthy_num x
  | BRow _ | BOther => true
  end.

(** ToNumber *)
Definition to_number (v : binding) : float :=
  match v with
  | BNum x => x
  | BNull => 0
  | BUndefined | BRow _ | BOther => NaN
  end.

(** What [rows.find(p)] evaluates to. *)
Definition of_find (o : option Row) : binding :=
  match o with
  | Some r => BRow r
  | None => BUndefined
  end.

End Scope.
Import Scope.

Declare Scope js_scope.
Delimit Scope js_scope with js.
Notation "x <- m ;; k" := (bind m (fun x => k))
  (at level 61, m at next level, right associativity) : js_scope.
Notation "m ;; k" := (bind m (fun _ => k))
  (at level 61, right associativity) : js_scope.
Local Open Scope js_scope.

(** [if (c) { body }] *)
Definition when (c : bool) (body : M unit) : M unit :=
  if c then block body else ret tt.

(** [for (const r of rows) { body }] *)
Fixpoint for_of (rows : list Row) (body : Row -> M unit) : M unit :=
  match rows with
  | [] => ret tt
  | r :: rows' => block (body r) ;; for_of rows' body
  end.

(** The body of the scoring loop, after [score] has its final value. *)
Definition keep_best (q : Query) (r : Row) : M unit :=
  bestScore <- get "bestScore" ;;
  if score q r <? to_number bestScore
  then set "bestScore" (BNum (score q r)) ;; set "best" (BRow r)
  else ret tt.

(** ** The matching code of [onPredict] *)

(** What the handler leaves on the page: the validation toast, the price
    with the line that says whether the match is exact, or "No match found".
    [Matched] carries the value of [match], the value read from [bestScore]
    and the outcome of the test [bestScore > 0], negated. *)
Inductive outcome : Type :=
| Rejected
| Matched (record : binding) (bestScore : float) (exact : bool)
| NoMatchFound.

(** [if (match) { ... bestScore > 0 ? nearest : exact ... } else { ... }],
    the same text in both variants. The price of the record is written to
    the page before [bestScore] is read. *)
Definition render : M outcome :=
  m <- get "match" ;;
  if truthy m then
    bestScore <- get "bestScore" ;;
    ret (Matched m (to_number bestScore) (negb (0 <? to_number bestScore)))
  else ret NoMatchFound.

Module App.

(** Names bound at the top level of [app.js], and the elements the page
    must have for the script to run (a browser exposes elements as globals
    under their id). The built-in properties of the global object
    ([document], [Math], ...) are left out; none is called [bestScore]. *)
Definition toplevel : frame :=
  map (fun x => (x, BOther))
    ["DATA"; "STATS"; "loadData"; "updateStats"; "populateSelect";
     "populateControls"; "addSamplePresets"; "loadSampleData"; "showToast";
     "onPredict";
     "price"; "stats"; "explain"; "Manufacturer"; "Model"; "Production_Year";
     "Category"; "Leather_Interior"; "Fuel_Type"; "Engine_Volume"; "Mileage";
     "Gearbox_Type"; "Drive_Wheels"; "Doors"; "Wheel"; "Airbags"].

(** The block of [if (!match) { ... }]: [best] and [bestScore] are
    declared inside it. *)
Definition nearestBlock (q : Query) (rows : list Row) : M unit :=
  declare "best" BNull ;;
  declare "bestScore" (BNum Infinity) ;;
  for_of rows (keep_best q) ;;
  best <- get "best" ;;
  set "match" best.

(** From [let match = rows.find(...)] to the closing brace of
    [if (!match)]. *)
Definition core (q : Query) (rows : list Row) : M unit :=
  declare "match" (of_find (find (exactPredicate q) rows)) ;;
  m <- get "match" ;;
  when (negb (truthy m)) (nearestBlock q rows).

(** The handler from [const rows = DATA.rows] on, run in the scope of the
    function body. *)
Definition predict (q : Query) (rows : list Row) : M outcome :=
  block (core q rows ;; render).

(** The value of [match] where the matching code ends. *)
Definition matched (q : Query) (rows : list Row) : M binding :=
  block (core q rows ;; get "match").

End App.

Module Labeled.

(** Top level of the variant with label mappings. *)
Definition toplevel : frame :=
  map (fun x => (x, BOther))
    ["DATA"; "STATS"; "LABEL_MAPPINGS"; "FIELD_TO_MAPPING_KEY"; "loadData";
     "updateStats"; "codeToLabel"; "populateSelect"; "populateControls";
     "addSamplePresets"; "loadSampleData"; "showToast"; "onPredict";
     "price"; "stats"; "explain"; "Manufacturer"; "Model"; "Production_Year";
     "Category"; "Leather_Interior"; "Fuel_Type"; "Engine_Volume"; "Mileage";
     "Gearbox_Type"; "Drive_Wheels"; "Doors"; "Wheel"; "Airbags"].

(** Here the block assigns the [bestScore] of the function scope. *)
Definition nearestBlock (q : Query) (rows : list Row) : M unit :=
  declare "best" BNull ;;
  set "bestScore" (BNum Infinity) ;;
  for_of rows (keep_best q) ;;
  best <- get "best" ;;
  set "match" best.

(** From [let bestScore = 0] to the closing brace of [if (!match)]. *)
Definition core (q : Query) (rows : list Row) : M unit :=
  declare "bestScore" (BNum 0) ;;
  declare "match" (of_find (find (exactPredicate q) rows)) ;;
  m <- get "match" ;;
  when (negb (truthy m)) (nearestBlock q rows).

Definition predict (q : Query) (rows : list Row) : M outcome :=
  block (core q rows ;; render).

Definition matched (q : Query) (rows : list Row) : M binding :=
  block (core q rows ;; get "match").

End Labeled.

(** ** Building the query from the form *)

(** [parseInt(s, 10)] and [parseFloat(s)], as ECMAScript defines them, on
    strings that hold the UTF-8 encoding of the text: leading white space is
    skipped, the longest prefix that is a number is read, and the result is
    [NaN] when there is none. The decimal value is rounded to the nearest
    binary64, ties to even. *)
Module Parse.

Local Open Scope char_scope.

(** The white space and line terminators below U+0080: tab, line feed,
    vertical tab, form feed, carriage return and space. *)
Definition is_white (c : ascii) : bool :=
  match c with
  | " " | "009" | "010" | "011" | "012" | "013" => true
  | _ => false
  end.

(** U+00A0, encoded on two bytes. *)
Definition is_white2 (c1 c2 : ascii) : bool :=
  (N_of_ascii c1 =? 194)%N && (N_of_ascii c2 =? 160)%N.

(** The other white space and line terminators, encoded on three bytes:
    U+1680, U+2000 to U+200A, U+2028, U+2029, U+202F, U+205F, U+3000 and
    U+FEFF. *)
Definition is_white3 (c1 c2 c3 : ascii) : bool :=
  let b1 := N_of_ascii c1 in
  let b2 := N_of_ascii c2 in
  let b3 := N_of_ascii c3 in
  ((b1 =? 225) && (b2 =? 154) && (b3 =? 128)
   || (b1 =? 226) && (b2 =? 128)
      && ((128 <=? b3) && (b3 <=? 138) || (b3 =? 168) || (b3 =? 169) || (b3 =? 175))
   || (b1 =? 226) && (b2 =? 129) && (b3 =? 159)
   || (b1 =? 227) && (b2 =? 128) && (b3 =? 128)
   || (b1 =? 239) && (b2 =? 187) && (b3 =? 191))%N.

Fixpoint skip_white (s : string) : string :=
  match s with
  | EmptyString => s
  | String c1 s1 =>
      if is_white c1 then skip_white s1
      else
        match s1 with
        | EmptyString => s
        | String c2 s2 =>
            if is_white2 c1 c2 then skip_white s2
            else
              match s2 with
              | EmptyString => s
              | String c3 s3 =>
                  if is_white3 c1 c2 c3 then skip_white s3 else s
              end
        end
  end.

Definition digit (c : ascii) : option N :=
  let n := N_of_ascii c in
  if ((48 <=? n) && (n <=? 57))%N then Some (n - 48)%N else None.

(** The longest run of decimal digits at the head of [s]: its value added
    to [10^k * acc], how many digits it has, and what follows it. *)
Fixpoint digits (s : string) (acc : N) (count : nat) : N * nat * string :=
  match s with
  | String c s' =>
      match digit c with
      | Some d => digits s' (10 * acc + d)%N (S count)
      | None => (acc, count, s)
      end
  | EmptyString => (acc, count, s)
  end.

Definition sign (s : string) : bool * string :=
  match s with
  | String "-" s' => (true, s')
  | String "+" s' => (false, s')
  | _ => (false, s)
  end.

Definition signed_zero (neg : bool) : float := if neg then (-0)%float else 0%float.

(** The binary64 nearest to [m * 10^e], with the sign [neg]. *)
Definition decimal (neg : bool) (m : N) (e : Z) : float :=
  match m with
  | N0 => signed_zero neg
  | Npos p =>
      if (0 <=? e)%Z then
        SF2Prim (binary_normalize prec emax
                   (cond_Zopp neg (Zpos p * 10 ^ e)%Z) 0%Z false)
      else
        let '(mz, ez, lz) :=
          SFdiv_core_binary prec emax (Zpos p) 0%Z (10 ^ (- e))%Z 0%Z in
        SF2Prim (binary_round_aux prec emax neg mz ez lz)
  end.

Definition parseInt (s : string) : float :=
  let '(neg, s1) := sign (skip_white s) in
  let '(n, count, _) := digits s1 0%N 0%nat in
  match count with
  | O => NaN
  | S _ => decimal neg n 0%Z
  end.

(** [e] or [E], an optional sign and at least one digit; anything else is
    not part of the number. *)
Definition exponent (s : string) : Z :=
  match s with
  | String c s' =>
      if (Ascii.eqb c "e" || Ascii.eqb c "E")%bool then
        let '(neg, s2) := sign s' in
        let '(n, count, _) := digits s2 0%N 0%nat in
        match count with
        | O => 0%Z
        | S _ => cond_Zopp neg (Z.of_N n)
        end
      else 0%Z
  | EmptyString => 0%Z
  end.

Definition parseFloat (s : string) : float :=
  let '(neg, s1) := sign (skip_white s) in
  if String.prefix "Infinity" s1 then (if neg then neg_infinity else infinity)
  else
    let '(n1, c1, s2) := digits s1 0%N 0%nat in
    let '(n2, c2, s3) :=
      match s2 with
      | String "." s2' =>
          let '(n, c, s') := digits s2' n1 0%nat in
          (n, c, s')
      | _ => (n1, 0%nat, s2)
      end in
    match (c1 + c2)%nat with
    | O => NaN
    | S _ => decimal neg n2 (exponent s3 - Z.of_nat c2)
    end.

End Parse.
Import Parse.

(** The values the handler reads from the page: [value] of each input and
    select, [checked] of the checkbox. *)
Record Form : Type := mkForm {
  Manufacturer_value : string;
  Model_value : string;
  Production_Year_value : string;
  Category_value : string;
  Leather_Interior_checked : bool;
  Fuel_Type_value : string;
  Engine_Volume_value : string;
  Mileage_value : string;
  Gearbox_Type_value : string;
  Drive_Wheels_value : string;
  Doors_value : string;
  Wheel_value : string;
  Airbags_value : string
}.

(** [const q = { ... }] *)
Definition makeQuery (f : Form) : Query :=
  {| q_Manufacturer := JStr (Manufacturer_value f);
     q_Model := JStr (Model_value f);
     q_Production_Year := parseInt (Production_Year_value f);
     q_Category := JStr (Category_value f);
     q_Leather_Interior := JBool (Leather_Interior_checked f);
     q_Fuel_Type := JStr (Fuel_Type_value f);
     q_Engine_Volume := or_num (parseFloat (Engine_Volume_value f)) 0;
     q_Mileage := or_num (parseInt (Mileage_value f)) 0;
     q_Gearbox_Type := JStr (Gearbox_Type_value f);
     q_Drive_Wheels := JStr (Drive_Wheels_value f);
     q_Doors := JNum (parseInt (Doors_value f));
     q_Wheel := JStr (Wheel_value f);
     q_Airbags := parseInt (Airbags_value f) |}.

(** ToBoolean on a primitive. *)
Definition truthy_val (v : jsval) : bool :=
  match v with
  | JUndefined | JNull => false
  | JBool b => b
  | JNum x => truthy_num x
  | JStr s => negb (String.eqb s "")
  end.

(** The test of [if (!q.Manufacturer || !q.Model || !q.Production_Year)]. *)
Definition missingRequired (q : Query) : bool :=
  negb (truthy_val (q_Manufacturer q)) || negb (truthy_val (q_Model q))
  || negb (truthy_num (q_Production_Year q)).

Module Handler.

(** [onPredict] of [app.js], given what the form holds and [DATA.rows]. *)
Definition onPredict_app (f : Form) (rows : list Row) : M outcome :=
  let q := makeQuery f in
  if missingRequired q then ret Rejected else App.predict q rows.

(** [onPredict] of the variant with label mappings. *)
Definition onPredict_labeled (f : Form) (rows : list Row) : M outcome :=
  let q := makeQuery f in
  if missingRequired q then ret Rejected else Labeled.predict q rows.

End Handler.

(** ** Statements of the specification *)

(** The query whose fields are those of the record [r]. *)
Definition queryFrom (r : Row) : Query :=
  {| q_Manufacturer := r_Manufacturer r;
     q_Model := r_Model r;
     q_Production_Year := r_Production_Year r;
     q_Category := r_Category r;
     q_Leather_Interior := r_Leather_Interior r;
     q_Fuel_Type := r_Fuel_Type r;
     q_Engine_Volume := r_Engine_Volume r;
     q_Mileage := r_Mileage r;
     q_Gearbox_Type := r_Gearbox_Type r;
     q_Drive_Wheels := r_Drive_Wheels r;
     q_Doors := r_Doors r;
     q_Wheel := r_Wheel r;
     q_Airbags := r_Airbags r |}.

(** A number is finite when it is neither [NaN] nor an infinity. *)
Definition finite (x : float) : bool := abs x <? Infinity.

(** A value [JSON.parse] can produce is not [NaN]. *)
Definition json_value (v : jsval) : bool :=
  match v with
  | JNum x => negb (is_nan x)
  | _ => true
  end.

(** A record as the data model describes it: values that come from JSON,
    with a finite engine volume. *)
Definition wf_row (r : Row) : bool :=
  json_value (r_Manufacturer r) && json_value (r_Model r)
  && negb (is_nan (r_Production_Year r))
  && json_value (r_Category r) && json_value (r_Leather_Interior r)
  && json_value (r_Fuel_Type r) && finite (r_Engine_Volume r)
  && negb (is_nan (r_Mileage r))
  && json_value (r_Gearbox_Type r) && json_value (r_Drive_Wheels r)
  && json_value (r_Doors r) && json_value (r_Wheel r)
  && negb (is_nan (r_Airbags r)).

(** The score as the specification words it: a penalty per categorical
    field that differs, and a weighted relative difference per numeric
    field, the denominator being the query's value when that is not zero. *)
Definition penalty (differ : bool) (w : float) : float := if differ then w else 0.

Definition denominator (x : float) : float := if x =? 0 then 1 else x.

Definition spec_score (q : Query) (r : Row) : float :=
  (penalty (strict_neq (r_Manufacturer r) (q_Manufacturer q)) 5
   + penalty (strict_neq (r_Model r) (q_Model q)) 5
   + penalty (strict_neq (r_Category r) (q_Category q)) 3
   + penalty (strict_neq (r_Fuel_Type r) (q_Fuel_Type q)) 3
   + penalty (strict_neq (r_Gearbox_Type r) (q_Gearbox_Type q)) 2
   + penalty (strict_neq (r_Drive_Wheels r) (q_Drive_Wheels q)) 2
   + penalty (strict_neq (r_Leather_Interior r) (q_Leather_Interior q)) 1)
  + (abs (r_Engine_Volume r - q_Engine_Volume q) / denominator (q_Engine_Volume q) * 2
     + abs (r_Mileage r - q_Mileage q) / denominator (q_Mileage q) * 1
     + abs (r_Production_Year r - q_Production_Year q) / 10 * 3
     + abs (r_Airbags r - q_Airbags q) / denominator (q_Airbags q) * 1).

(** The scenario of the specification. *)
Module Scenario.

Definition row : Row :=
  {| r_Manufacturer := JStr "A";
     r_Model := JStr "X";
     r_Production_Year := 2015;
     r_Category := JStr "C1";
     r_Leather_Interior := JBool true;
     r_Fuel_Type := JStr "F1";
     r_Engine_Volume := 2.0;
     r_Mileage := 50000;
     r_Gearbox_Type := JStr "G1";
     r_Drive_Wheels := JStr "D1";
     r_Doors := JStr "4";
     r_Wheel := JStr "L";
     r_Airbags := 6;
     predicted_price := 12000 |}.

Definition dataset : list Row := [row].

Definition query : Query :=
  {| q_Manufacturer := JStr "A";
     q_Model := JStr "X";
     q_Production_Year := 2016;
     q_Category := JStr "C1";
     q_Leather_Interior := JBool true;
     q_Fuel_Type := JStr "F1";
     q_Engine_Volume := 2.0;
     q_Mileage := 50000;
     q_Gearbox_Type := JStr "G1";
     q_Drive_Wheels := JStr "D1";
     q_Doors := JStr "4";
     q_Wheel := JStr "L";
     q_Airbags := 6 |}.

(** The same car from another manufacturer, and a second entry of the
    same car with another price. *)
Definition other_make : Row :=
  {| r_Manufacturer := JStr "B";
     r_Model := JStr "X";
     r_Production_Year := 2015;
     r_Category := JStr "C1";
     r_Leather_Interior := JBool true;
     r_Fuel_Type := JStr "F1";
     r_Engine_Volume := 2.0;
     r_Mileage := 50000;
     r_Gearbox_Type := JStr "G1";
     r_Drive_Wheels := JStr "D1";
     r_Doors := JStr "4";
     r_Wheel := JStr "L";
     r_Airbags := 6;
     predicted_price := 11000 |}.

Definition twin : Row :=
  {| r_Manufacturer := JStr "A";
     r_Model := JStr "X";
     r_Production_Year := 2015;
     r_Category := JStr "C1";
     r_Leather_Interior := JBool true;
     r_Fuel_Type := JStr "F1";
     r_Engine_Volume := 2.0;
     r_Mileage := 50000;
     r_Gearbox_Type := JStr "G1";
     r_Drive_Wheels := JStr "D1";
     r_Doors := JStr "2";
     r_Wheel := JStr "L";
     r_Airbags := 6;
     predicted_price := 15000 |}.

(** A record as the form can describe it, with a numeric code for the
    doors, and the form filled in with its values. *)
Definition listed : Row :=
  {| r_Manufacturer := JStr "A";
     r_Model := JStr "X";
     r_Production_Year := 2015;
     r_Category := JStr "C1";
     r_Leather_Interior := JBool true;
     r_Fuel_Type := JStr "F1";
     r_Engine_Volume := 2.0;
     r_Mileage := 50000;
     r_Gearbox_Type := JStr "G1";
     r_Drive_Wheels := JStr "D1";
     r_Doors := JNum 4;
     r_Wheel := JStr "L";
     r_Airbags := 6;
     predicted_price := 12000 |}.

Definition form_listed : Form :=
  {| Manufacturer_value := "A";
     Model_value := "X";
     Production_Year_value := "2015";
     Category_value := "C1";
     Leather_Interior_checked := true;
     Fuel_Type_value := "F1";
     Engine_Volume_value := "2.0";
     Mileage_value := "50000";
     Gearbox_Type_value := "G1";
     Drive_Wheels_value := "D1";
     Doors_value := "4";
     Wheel_value := "L";
     Airbags_value := "6" |}.


(** What the specification expects of the matcher on this scenario. *)
Definition expected : outcome := Matched (BRow row) 0.3 false.

(** The form of [form_listed] for the year 2016 and an engine volume of
    1e-320 litres. *)
Definition form_tiny_volume : Form :=
  {| Manufacturer_value := "A";
     Model_value := "X";
     Production_Year_value := "2016";
     Category_value := "C1";
     Leather_Interior_checked := true;
     Fuel_Type_value := "F1";
     Engine_Volume_value := "1e-320";
     Mileage_value := "50000";
     Gearbox_Type_value := "G1";
     Drive_Wheels_value := "D1";
     Doors_value := "4";
     Wheel_value := "L";
     Airbags_value := "6" |}.

(** A record whose price is not a number. *)
Definition unpriced : Row :=
  {| r_Manufacturer := JStr "A";
     r_Model := JStr "X";
     r_Production_Year := 2015;
     r_Category := JStr "C1";
     r_Leather_Interior := JBool true;
     r_Fuel_Type := JStr "F1";
     r_Engine_Volume := 2.0;
     r_Mileage := 50000;
     r_Gearbox_Type := JStr "G1";
     r_Drive_Wheels := JStr "D1";
     r_Doors := JStr "4";
     r_Wheel := JStr "L";
     r_Airbags := 6;
     predicted_price := NaN |}.

(** A form filled in for a car of the dataset, with the Airbags select
    left on "Select...". *)
Definition form_without_airbags : Form :=
  {| Manufacturer_value := "A";
     Model_value := "X";
     Production_Year_value := "2015";
     Category_value := "C1";
     Leather_Interior_checked := true;
     Fuel_Type_value := "F1";
     Engine_Volume_value := "";
     Mileage_value := "";
     Gearbox_Type_value := "G1";
     Drive_Wheels_value := "D1";
     Doors_value := "";
     Wheel_value := "L";
     Airbags_value := "" |}.

End Scenario.

(** The fields [Doors] and [Wheel] replaced, in a record and in a query. *)
Definition row_with_doors_wheel (r : Row) (doors wheel : jsval) : Row :=
  {| r_Manufacturer := r_Manufacturer r;
     r_Model := r_Model r;
     r_Production_Year := r_Production_Year r;
     r_Category := r_Category r;
     r_Leather_Interior := r_Leather_Interior r;
     r_Fuel_Type := r_Fuel_Type r;
     r_Engine_Volume := r_Engine_Volume r;
     r_Mileage := r_Mileage r;
     r_Gearbox_Type := r_Gearbox_Type r;
     r_Drive_Wheels := r_Drive_Wheels r;
     r_Doors := doors;
     r_Wheel := wheel;
     r_Airbags := r_Airbags r;
     predicted_price := predicted_price r |}.

Definition query_with_doors_wheel (q : Query) (doors wheel : jsval) : Query :=
  {| q_Manufacturer := q_Manufacturer q;
     q_Model := q_Model q;
     q_Production_Year := q_Production_Year q;
     q_Category := q_Category q;
     q_Leather_Interior := q_Leather_Interior q;
     q_Fuel_Type := q_Fuel_Type q;
     q_Engine_Volume := q_Engine_Volume q;
     q_Mileage := q_Mileage q;
     q_Gearbox_Type := q_Gearbox_Type q;
     q_Drive_Wheels := q_Drive_Wheels q;
     q_Doors := doors;
     q_Wheel := wheel;
     q_Airbags := q_Airbags q |}.

(** The result of a run without the scope chain it leaves. *)
Definition outcome_of {A : Type} (r : result A) : js_error + A :=
  match r with
  | Ok a _ => inr a
  | Throw e => inl e
  end.

(** [null] or a record, as a value of a variable. *)
Definition of_best (o : option Row) : binding :=
  match o with
  | Some r => BRow r
  | None => BNull
  end.

(** The record the two passes select, and the outcome computed from it the
    way the variant with label mappings does. *)
Definition selected (q : Query) (rows : list Row) : option Row :=
  match find (exactPredicate q) rows with
  | Some r => Some r
  | None => fst (nearest q rows)
  end.

Definition labeled_outcome (q : Query) (rows : list Row) : outcome :=
  match find (exactPredicate q) rows with
  | Some r => Matched (BRow r) 0 true
  | None =>
      match nearest q rows with
      | (Some r, s) => Matched (BRow r) s (negb (0 <? s))
      | (None, _) => NoMatchFound
      end
  end.

(** ** Decoding codes into labels *)

Module Labels.

(** An object as [Object.entries] lists it: its keys, which are distinct,
    each with its value. *)
Fixpoint property {A : Type} (key : string) (object : list (string * A)) : option A :=
  match object with
  | [] => None
  | (k, v) :: object' => if String.eqb key k then Some v else property key object'
  end.

(** The table at the head of the variant with label mappings. Field names
    are looked up among its own keys. *)
Definition FIELD_TO_MAPPING_KEY : list (string * string) :=
  [("Manufacturer", "Manufacturer");
   ("Model", "Model");
   ("Category", "Category");
   ("Fuel Type", "Fuel type");
   ("Gearbox Type", "Gear box type");
   ("Drive Wheels", "Drive wheels");
   ("Doors", "Doors");
   ("Wheel", "Wheel");
   ("Color", "Color")].

(** One entry of [label_mappings.json]: label to code. *)
Definition mapping : Type := list (string * jsval).

Definition is_digit (c : ascii) : bool :=
  match digit c with
  | Some _ => true
  | None => false
  end.

Fixpoint all_digits (s : string) : bool :=
  match s with
  | EmptyString => true
  | String c s' => is_digit c && all_digits s'
  end.

(** What [rawValue.match(/(\d+)$/)] captures: the match starts at the first
    position from which only digits follow to the end of the string. *)
Fixpoint trailing_digits (s : string) : option string :=
  match s with
  | EmptyString => None
  | String c s' => if all_digits s then Some s else trailing_digits s'
  end.

(** [Object.entries(mapping).find(([, idx]) => idx === code)] *)
Definition entry_of_code (code : float) (m : mapping) : option (string * jsval) :=
  find (fun entry => strict_eq (snd entry) (JNum code)) m.

(** [codeToLabel(fieldName, rawValue)], given the value of [LABEL_MAPPINGS]:
    [None] while it is null. *)
Definition codeToLabel (LABEL_MAPPINGS : option (list (string * mapping)))
    (fieldName : string) (rawValue : jsval) : jsval :=
  match LABEL_MAPPINGS with
  | None => rawValue
  | Some mappings =>
      match property fieldName FIELD_TO_MAPPING_KEY with
      | None => rawValue
      | Some mappingKey =>
          match property mappingKey mappings with
          | None => rawValue
          | Some m =>
              let code :=
                match rawValue with
                | JStr s =>
                    match trailing_digits s with
                    | Some digits => Some (parseInt digits)
                    | None => None
                    end
                | JNum x => Some x
                | _ => None
                end in
              match code with
              | None => rawValue
              | Some code =>
                  match entry_of_code code m with
                  | Some entry => JStr (fst entry)
                  | None => rawValue
                  end
              end
          end
      end
  end.

(** A small table of labels, for examples. *)
Definition sample_mappings : list (string * mapping) :=
  [("Manufacturer", [("AUDI", JNum 3); ("BMW", JNum 5); ("TOYOTA", JNum 22)]);
   ("Doors", [("02-Mar", JNum 0); ("04-May", JNum 1); (">5", JNum 2)])].

End Labels.

(** ** Summary statistics *)

Module Stats.

(** One step of [Math.min]: [NaN] is kept, [-0] replaces [+0], and a
    smaller number replaces the lowest so far. *)
Definition min_step (lowest number : float) : float :=
  if is_nan lowest || is_nan number then NaN
  else if PrimFloat.Leibniz.eqb number (-0) && PrimFloat.Leibniz.eqb lowest 0
       then number
       else if number <? lowest then number else lowest.

(** [Math.min(...numbers)]. The limit an engine puts on the number of
    arguments of a call is not part of the model. *)
Definition Math_min (numbers : list float) : float :=
  fold_left min_step numbers Infinity.

Definition max_step (highest number : float) : float :=
  if is_nan highest || is_nan number then NaN
  else if PrimFloat.Leibniz.eqb number 0 && PrimFloat.Leibniz.eqb highest (-0)
       then number
       else if highest <? number then number else highest.

(** [Math.max(...numbers)] *)
Definition Math_max (numbers : list float) : float :=
  fold_left max_step numbers neg_infinity.

(** The part of [data.json] the statistics read. *)
Record Data : Type := mkData {
  d_rows : list Row;
  unique_Manufacturer : list jsval;
  unique_Model : list jsval
}.

Record STATS : Type := mkSTATS {
  totalCars : nat;
  manufacturers : nat;
  models : nat;
  minPrice : float;
  maxPrice : float
}.

(** The object [loadData] stores in [STATS]. *)
Definition loadStats (DATA : Data) : STATS :=
  {| totalCars := List.length (d_rows DATA);
     manufacturers := List.length (unique_Manufacturer DATA);
     models := List.length (unique_Model DATA);
     minPrice := Math_min (map predicted_price (d_rows DATA));
     maxPrice := Math_max (map predicted_price (d_rows DATA)) |}.

End Stats.

(** ** Loading a sample *)

Module Sample.

(** The number an integer converts to. *)
Definition of_Z (z : Z) : float := SF2Prim (binary_normalize prec emax z 0%Z false).

(** [Math.floor]: [NaN], the infinities and the zeros are returned as they
    are, a number between 0 and 1 gives [+0]. *)
Definition Math_floor (x : float) : float :=
  match Prim2SF x with
  | S754_finite s m e =>
      if (0 <=? e)%Z then x
      else
        let n := Z.shiftr (Zpos m) (- e) in
        let whole := (Z.shiftl n (- e) =? Zpos m)%Z in
        if s then of_Z (if whole then - n else - n - 1)%Z else of_Z n
  | _ => x
  end.

(** The array index a number used as a property key denotes, if any: the
    key is the decimal form of the number, an index when the number is a
    whole number that is not negative. *)
Definition array_index (x : float) : option Z :=
  match Prim2SF x with
  | S754_zero _ => Some 0%Z
  | S754_finite false m e =>
      if (0 <=? e)%Z then Some (Z.shiftl (Zpos m) e)
      else
        let n := Z.shiftr (Zpos m) (- e) in
        if (Z.shiftl n (- e) =? Zpos m)%Z then Some n else None
  | _ => None
  end.

(** [rows[x]]: [None] is [undefined], what a key that is not an index of
    the array gives. *)
Definition element (rows : list Row) (x : float) : option Row :=
  match array_index x with
  | Some i =>
      if (i <? Z.of_nat (List.length rows))%Z then nth_error rows (Z.to_nat i)
      else None
  | None => None
  end.

(** What [loadSampleData] does: it fills the form with the fields of the
    record it drew, or raises [TypeError] at the first property it reads
    from [undefined]. *)
Inductive loaded : Type :=
| Filled (sample : Row)
| TypeError (property : string).

(** [loadSampleData], given [DATA.rows] and the number [Math.random()]
    returns. *)
Definition loadSampleData (random : float) (rows : list Row) : loaded :=
  let sample :=
    element rows (Math_floor (random * of_Z (Z.of_nat (List.length rows)))) in
  match sample with
  | Some r => Filled r
  | None => TypeError "Manufacturer"
  end.

End Sample.

(** A record whose scored fields are values from JSON and finite numbers. *)
Definition scored_finite (r : Row) : bool :=
  json_value (r_Manufacturer r) && json_value (r_Model r)
  && json_value (r_Category r) && json_value (r_Fuel_Type r)
  && json_value (r_Gearbox_Type r) && json_value (r_Drive_Wheels r)
  && json_value (r_Leather_Interior r)
  && finite (r_Engine_Volume r) && finite (r_Mileage r)
  && finite (r_Production_Year r) && finite (r_Airbags r).

(** * Properties *)

(** ** Binary64 facts *)

Section Binary64.

Lemma nan_spec : Prim2SF nan = S754_nan.
Proof. reflexivity. Qed.

Lemma is_nan_eq (x : float) : is_nan x = true -> x = nan.
Proof.
  unfold is_nan. rewrite FloatAxioms.eqb_spec. intros H.
  apply Prim2SF_inj. rewrite nan_spec.
  destruct (Prim2SF x) as [s | s | | s m e]; try reflexivity; exfalso.
  - destruct s; discriminate.
  - destruct s; discriminate.
  - unfold SFeqb, SFcompare in H.
    rewrite Z.compare_refl, Pos.compare_cont_refl in H.
    destruct s; discriminate.
Qed.

Lemma sub_nan_r (x : float) : x - nan = nan.
Proof.
  apply Prim2SF_inj. rewrite FloatAxioms.sub_spec, nan_spec.
  destruct (Prim2SF x); reflexivity.
Qed.

Lemma add_nan_r (x : float) : x + nan = nan.
Proof.
  apply Prim2SF_inj. rewrite FloatAxioms.add_spec, nan_spec.
  destruct (Prim2SF x); reflexivity.
Qed.

Lemma add_nan_l (x : float) : nan + x = nan.
Proof.
  apply Prim2SF_inj. rewrite FloatAxioms.add_spec, nan_spec. reflexivity.
Qed.

Lemma mul_nan_l (x : float) : nan * x = nan.
Proof.
  apply Prim2SF_inj. rewrite FloatAxioms.mul_spec, nan_spec. reflexivity.
Qed.

Lemma div_nan_l (x : float) : nan / x = nan.
Proof.
  apply Prim2SF_inj. rewrite FloatAxioms.div_spec, nan_spec. reflexivity.
Qed.

Lemma abs_nan : abs nan = nan.
Proof. reflexivity. Qed.

Lemma ltb_nan_l (x : float) : (nan <? x) = false.
Proof. rewrite FloatAxioms.ltb_spec, nan_spec. reflexivity. Qed.

Lemma eqb_nan_r (x : float) : (x =? nan) = false.
Proof.
  rewrite FloatAxioms.eqb_spec, nan_spec. unfold SFeqb.
  destruct (Prim2SF x); reflexivity.
Qed.

Lemma ltb_not_nan_l (x y : float) : (x <? y) = true -> is_nan x = false.
Proof.
  intros H. destruct (is_nan x) eqn:E; [|reflexivity].
  apply is_nan_eq in E. subst x. rewrite ltb_nan_l in H. discriminate.
Qed.

Lemma infinity_spec : Prim2SF Infinity = S754_infinity false.
Proof. reflexivity. Qed.

Lemma zero_spec : Prim2SF 0 = S754_zero false.
Proof. reflexivity. Qed.

(** [x - x] is [+0] for a finite [x]. *)
Lemma sub_diag_finite (x : float) : finite x = true -> x - x = 0.
Proof.
  unfold finite. rewrite FloatAxioms.ltb_spec, FloatAxioms.abs_spec, infinity_spec.
  intros H. apply Prim2SF_inj.
  rewrite FloatAxioms.sub_spec, zero_spec.
  destruct (Prim2SF x) as [s | s | | s m e]; try discriminate.
  - destruct s; reflexivity.
  - cbv [SF64sub SFsub]. rewrite Z.sub_diag. reflexivity.
Qed.

(** Swapping the operands of a comparison reverses its result. *)
Lemma SFcompare_swap (a b : spec_float) :
  SFcompare b a = option_map CompOpp (SFcompare a b).
Proof.
  destruct a as [s1 | s1 | | s1 m1 e1], b as [s2 | s2 | | s2 m2 e2];
    try (destruct s1; reflexivity); try (destruct s2; reflexivity);
    try (destruct s1, s2; reflexivity); try reflexivity.
  cbn [SFcompare option_map].
  rewrite (Z.compare_antisym e1 e2).
  pose proof (Pos.compare_cont_antisym m1 m2 Eq) as Hm. cbn [CompOpp] in Hm.
  rewrite <- Hm.
  destruct s1, s2, (e1 ?= e2)%Z, (Pos.compare_cont Eq m1 m2); reflexivity.
Qed.

(** Two numbers, neither of them [NaN], are ordered one way or the other
    or are equal. *)
Lemma ltb_trichotomy (a b : float) :
  is_nan a = false -> is_nan b = false ->
  (a <? b) = false -> (a =? b) = false -> (b <? a) = true.
Proof.
  unfold is_nan.
  rewrite !FloatAxioms.ltb_spec, !FloatAxioms.eqb_spec.
  unfold SFltb, SFeqb.
  rewrite (SFcompare_swap (Prim2SF a) (Prim2SF b)).
  intros Ha Hb.
  destruct (SFcompare (Prim2SF a) (Prim2SF b)) as [[ | | ] | ] eqn:E;
    cbn; try discriminate; try reflexivity.
  exfalso.
  destruct (Prim2SF a) as [s1 | s1 | | s1 m1 e1]; cbn in Ha; try discriminate;
    destruct (Prim2SF b) as [s2 | s2 | | s2 m2 e2]; cbn in Hb; try discriminate;
    cbn in E; discriminate.
Qed.

End Binary64.

(** ** Running the two variants *)

Section Runs.

Variable q : Query.

(** One iteration, in [app.js], where the block declares both variables. *)
Lemma App_keep_best (r : Row) (o : option Row) (bs : float) (fn : frame) (g : scopes) :
  block (keep_best q r)
    ([("bestScore", BNum bs); ("best", of_best o)] :: fn :: g)
  = Ok tt ([("bestScore", BNum (snd (step q (o, bs) r)));
            ("best", of_best (fst (step q (o, bs) r)))] :: fn :: g).
Proof.
  unfold block, keep_best, bind, get, set, step. cbn -[score].
  destruct (score q r <? bs); reflexivity.
Qed.

Lemma App_loop (rows : list Row) :
  forall (o : option Row) (bs : float) (fn : frame) (g : scopes),
    for_of rows (keep_best q)
      ([("bestScore", BNum bs); ("best", of_best o)] :: fn :: g)
    = Ok tt ([("bestScore", BNum (snd (fold_left (step q) rows (o, bs))));
              ("best", of_best (fst (fold_left (step q) rows (o, bs))))]
             :: fn :: g).
Proof.
  induction rows as [|r rows IH]; intros o bs fn g.
  - reflexivity.
  - cbn [for_of fold_left]. unfold bind. rewrite App_keep_best.
    rewrite IH, <- surjective_pairing. reflexivity.
Qed.

(** One iteration in the other variant, where [bestScore] belongs to the
    function scope. *)
Lemma Labeled_keep_best (r : Row) (o : option Row) (bs : float) (m : binding) (g : scopes) :
  block (keep_best q r)
    ([("best", of_best o)] :: [("match", m); ("bestScore", BNum bs)] :: g)
  = Ok tt ([("best", of_best (fst (step q (o, bs) r)))]
           :: [("match", m); ("bestScore", BNum (snd (step q (o, bs) r)))] :: g).
Proof.
  unfold block, keep_best, bind, get, set, step. cbn -[score].
  destruct (score q r <? bs); reflexivity.
Qed.

Lemma Labeled_loop (rows : list Row) :
  forall (o : option Row) (bs : float) (m : binding) (g : scopes),
    for_of rows (keep_best q)
      ([("best", of_best o)] :: [("match", m); ("bestScore", BNum bs)] :: g)
    = Ok tt ([("best", of_best (fst (fold_left (step q) rows (o, bs))))]
             :: [("match", m);
                 ("bestScore", BNum (snd (fold_left (step q) rows (o, bs))))]
             :: g).
Proof.
  induction rows as [|r rows IH]; intros o bs m g.
  - reflexivity.
  - cbn [for_of fold_left]. unfold bind. rewrite Labeled_keep_best.
    rewrite IH, <- surjective_pairing. reflexivity.
Qed.

Lemma App_matched_run (rows : list Row) (g : scopes) :
  App.matched q rows g = Ok (of_best (selected q rows)) g.
Proof.
  unfold App.matched, App.core, selected, block, bind, declare at 1.
  destruct (find (exactPredicate q) rows) as [r|]; cbn -[score nearest for_of].
  - reflexivity.
  - unfold App.nearestBlock, block, bind, declare.
    change BNull with (of_best None) at 1.
    rewrite App_loop. reflexivity.
Qed.

Lemma Labeled_matched_run (rows : list Row) (g : scopes) :
  Labeled.matched q rows g = Ok (of_best (selected q rows)) g.
Proof.
  unfold Labeled.matched, Labeled.core, selected, block, bind.
  destruct (find (exactPredicate q) rows) as [r|]; cbn -[score nearest for_of].
  - reflexivity.
  - unfold Labeled.nearestBlock, block, bind, declare, set.
    cbn -[score nearest for_of].
    change BNull with (of_best None) at 1.
    rewrite Labeled_loop. reflexivity.
Qed.

Lemma Labeled_predict_run (rows : list Row) (g : scopes) :
  Labeled.predict q rows g = Ok (labeled_outcome q rows) g.
Proof.
  unfold Labeled.predict, Labeled.core, labeled_outcome, block, bind.
  destruct (find (exactPredicate q) rows) as [r|]; cbn -[score nearest for_of].
  - reflexivity.
  - unfold Labeled.nearestBlock, block, bind, declare, set.
    cbn -[score nearest for_of].
    change BNull with (of_best None) at 1.
    rewrite Labeled_loop. fold (nearest q rows).
    destruct (nearest q rows) as [[r|] s]; reflexivity.
Qed.

(** In [app.js] the test [bestScore > 0] reads whatever an enclosing
    scope binds to that name. *)
Lemma App_predict_run (rows : list Row) (g : scopes) :
  App.predict q rows g =
    match selected q rows with
    | Some r =>
        match lookup "bestScore" g with
        | Some v =>
            Ok (Matched (BRow r) (to_number v) (negb (0 <? to_number v))) g
        | None => Throw (ReferenceError "bestScore")
        end
    | None => Ok NoMatchFound g
    end.
Proof.
  unfold App.predict, App.core, selected, block, bind, declare at 1.
  destruct (find (exactPredicate q) rows) as [r|]; cbn -[score nearest for_of].
  - unfold render, bind, get. cbn.
    destruct (lookup "bestScore" g); reflexivity.
  - unfold App.nearestBlock, block, bind, declare.
    change BNull with (of_best None) at 1.
    rewrite App_loop. fold (nearest q rows).
    destruct (nearest q rows) as [[r|] s]; cbn.
    + unfold render, bind, get. cbn.
      destruct (lookup "bestScore" g); reflexivity.
    + reflexivity.
Qed.

End Runs.

(** ** The scans as functions of the rows *)

Section Scans.

Variable q : Query.

(** [find] returns the first element that passes the test. *)
Lemma find_first {A : Type} (f : A -> bool) (l : list A) (x : A) :
  In x l -> f x = true ->
  exists l1 y l2,
    l = l1 ++ y :: l2 /\ find f l = Some y /\ f y = true
    /\ (forall z, In z l1 -> f z = false) /\ (y = x \/ In x l2).
Proof.
  induction l as [|a l IH]; intros Hin Hx; [destruct Hin|].
  destruct (f a) eqn:Ha.
  - exists [], a, l. cbn. rewrite Ha.
    split; [reflexivity|]. split; [reflexivity|]. split; [reflexivity|].
    split; [intros z []|].
    destruct Hin as [->|Hin]; [now left|now right].
  - destruct Hin as [->|Hin]; [congruence|].
    destruct (IH Hin Hx) as (l1 & y & l2 & -> & Hf & Hy & Hl1 & Hpos).
    exists (a :: l1), y, l2. cbn. rewrite Ha.
    split; [reflexivity|]. split; [assumption|]. split; [assumption|].
    split; [|assumption].
    intros z [<-|Hz]; auto.
Qed.

Lemma fold_step_In (rows : list Row) :
  forall (acc : option Row * float) (r : Row),
    fst (fold_left (step q) rows acc) = Some r -> In r rows \/ fst acc = Some r.
Proof.
  induction rows as [|a rows IH]; intros acc r H; cbn in *; auto.
  destruct (IH _ _ H) as [Hin|Hacc]; auto.
  unfold step in Hacc.
  destruct (score q a <? snd acc); auto.
  cbn in Hacc. injection Hacc as ->. auto.
Qed.

Lemma nearest_In (rows : list Row) (r : Row) :
  fst (nearest q rows) = Some r -> In r rows.
Proof.
  intros H. destruct (fold_step_In rows _ _ H) as [Hin|Hacc]; auto.
  discriminate.
Qed.

Lemma selected_In (rows : list Row) (r : Row) :
  selected q rows = Some r -> In r rows.
Proof.
  unfold selected.
  destruct (find (exactPredicate q) rows) as [x|] eqn:E; intros H.
  - injection H as <-. apply (find_some _ _ E).
  - now apply nearest_In.
Qed.

(** Rows whose score is not below [bestScore] leave the pair as it is. *)
Lemma fold_step_keeps (rows : list Row) (acc : option Row * float) :
  (forall x, In x rows -> (score q x <? snd acc) = false) ->
  fold_left (step q) rows acc = acc.
Proof.
  induction rows as [|a rows IH]; intros H; cbn; auto.
  unfold step at 2. rewrite (H a (or_introl eq_refl)).
  apply IH. intros x Hx. apply H. now right.
Qed.

End Scans.

Lemma strict_eq_refl (v : jsval) : json_value v = true -> strict_eq v v = true.
Proof.
  destruct v as [| |b|x|s]; cbn; intros H; auto.
  - apply Bool.eqb_reflx.
  - unfold is_nan in H. now rewrite negb_involutive in H.
  - apply String.eqb_refl.
Qed.

Lemma eqb_refl_not_nan (x : float) : negb (is_nan x) = true -> (x =? x) = true.
Proof. unfold is_nan. now rewrite negb_involutive. Qed.

(** A well-formed record passes the exact test of its own query. *)
Lemma exactPredicate_queryFrom (r : Row) :
  wf_row r = true -> exactPredicate (queryFrom r) r = true.
Proof.
  unfold wf_row, exactPredicate. cbn [queryFrom q_Manufacturer q_Model
    q_Production_Year q_Category q_Leather_Interior q_Fuel_Type q_Engine_Volume
    q_Mileage q_Gearbox_Type q_Drive_Wheels q_Doors q_Wheel q_Airbags].
  intros H. rewrite !andb_true_iff in H.
  destruct H as [[[[[[[[[[[[H1 H2] H3] H4] H5] H6] H7] H8] H9] H10] H11] H12] H13].
  rewrite !strict_eq_refl, !eqb_refl_not_nan by assumption.
  rewrite (sub_diag_finite _ H7). reflexivity.
Qed.

(** ** Exact matches *)

(** In the variant with label mappings, the query of a record of the dataset
    gets the first record that passes the exact test, with [bestScore] 0 and
    the exact flag; that record is the one asked for or stands before it. *)
Theorem Labeled_exactness (rows : list Row) (R : Row) (g : scopes) :
  In R rows -> wf_row R = true ->
  exists l1 r l2,
    rows = l1 ++ r :: l2
    /\ (forall z, In z l1 -> exactPredicate (queryFrom R) z = false)
    /\ exactPredicate (queryFrom R) r = true
    /\ (r = R \/ In R l2)
    /\ Labeled.predict (queryFrom R) rows g = Ok (Matched (BRow r) 0 true) g.
Proof.
  intros Hin Hwf.
  destruct (find_first (exactPredicate (queryFrom R)) rows R Hin
              (exactPredicate_queryFrom R Hwf))
    as (l1 & r & l2 & Hrows & Hfind & Hr & Hl1 & Hpos).
  exists l1, r, l2. repeat (split; [assumption|]).
  rewrite Labeled_predict_run. unfold labeled_outcome. now rewrite Hfind.
Qed.

(** C1, on [app.js]: the query of a record of the dataset finds the first
    record that passes the exact test, and the handler then raises
    [ReferenceError] where it tests [bestScore], so no exact flag and no
    score come out. *)
Theorem App_exactness_throws (rows : list Row) (R : Row) :
  In R rows -> wf_row R = true ->
  (exists r, App.matched (queryFrom R) rows [App.toplevel]
             = Ok (BRow r) [App.toplevel]
             /\ exactPredicate (queryFrom R) r = true)
  /\ App.predict (queryFrom R) rows [App.toplevel]
     = Throw (ReferenceError "bestScore").
Proof.
  intros Hin Hwf.
  destruct (find_first (exactPredicate (queryFrom R)) rows R Hin
              (exactPredicate_queryFrom R Hwf))
    as (l1 & r & l2 & Hrows & Hfind & Hr & Hl1 & Hpos).
  rewrite App_matched_run, App_predict_run. unfold selected. rewrite Hfind.
  split; [exists r; split; [reflexivity|assumption] | reflexivity].
Qed.

Lemma App_exactness_throws_witness :
  In Scenario.listed [Scenario.other_make; Scenario.listed]
  /\ wf_row Scenario.listed = true
  /\ makeQuery Scenario.form_listed = queryFrom Scenario.listed
  /\ Handler.onPredict_labeled Scenario.form_listed
       [Scenario.other_make; Scenario.listed] [Labeled.toplevel]
     = Ok (Matched (BRow Scenario.listed) 0 true) [Labeled.toplevel]
  /\ Handler.onPredict_app Scenario.form_listed
       [Scenario.other_make; Scenario.listed] [App.toplevel]
     = Throw (ReferenceError "bestScore").
Proof.
  split; [right; left; reflexivity|]. split; [reflexivity|].
  split; [reflexivity|]. split; [reflexivity|].
  change (App.predict (queryFrom Scenario.listed)
            [Scenario.other_make; Scenario.listed] [App.toplevel]
          = Throw (ReferenceError "bestScore")).
  apply (App_exactness_throws [Scenario.other_make; Scenario.listed]
           Scenario.listed);
    [right; left; reflexivity | reflexivity].
Defined.

(** ** Completion *)

(** The variant with label mappings always runs to completion and leaves
    the enclosing scopes as they were. *)
Theorem Labeled_never_throws (q : Query) (rows : list Row) (g : scopes) :
  exists o, Labeled.predict q rows g = Ok o g.
Proof. exists (labeled_outcome q rows). apply Labeled_predict_run. Qed.

(** C2, on [app.js]: whenever the matching code ends with a record in
    [match], the handler raises [ReferenceError] at the test of [bestScore],
    a name declared in the block of [if (!match)] only. *)
Theorem App_predict_throws (q : Query) (rows : list Row) (r : Row) :
  App.matched q rows [App.toplevel] = Ok (BRow r) [App.toplevel] ->
  App.predict q rows [App.toplevel] = Throw (ReferenceError "bestScore").
Proof.
  rewrite App_matched_run, App_predict_run.
  destruct (selected q rows); [reflexivity|discriminate].
Qed.

Lemma App_predict_throws_witness :
  App.matched Scenario.query Scenario.dataset [App.toplevel]
  = Ok (BRow Scenario.row) [App.toplevel]
  /\ App.predict Scenario.query Scenario.dataset [App.toplevel]
     = Throw (ReferenceError "bestScore")
  /\ Labeled.predict Scenario.query Scenario.dataset [Labeled.toplevel]
     = Ok (Matched (BRow Scenario.row) 0.30000000000000004 false)
          [Labeled.toplevel].
Proof.
  split; [reflexivity|]. split; [|reflexivity].
  apply (App_predict_throws Scenario.query Scenario.dataset Scenario.row).
  reflexivity.
Defined.

(** ** Empty dataset *)

(** C5: on a dataset without records a query that passes the validation
    ends with [match] null and the handler reports "No match found", in
    both variants, without raising. *)
Theorem empty_dataset_no_match (q : Query) :
  missingRequired q = false ->
  App.matched q [] [App.toplevel] = Ok BNull [App.toplevel]
  /\ App.predict q [] [App.toplevel] = Ok NoMatchFound [App.toplevel]
  /\ Labeled.matched q [] [Labeled.toplevel] = Ok BNull [Labeled.toplevel]
  /\ Labeled.predict q [] [Labeled.toplevel] = Ok NoMatchFound [Labeled.toplevel]
  /\ (forall f, makeQuery f = q ->
        Handler.onPredict_app f [] [App.toplevel]
        = Ok NoMatchFound [App.toplevel]
        /\ Handler.onPredict_labeled f [] [Labeled.toplevel]
           = Ok NoMatchFound [Labeled.toplevel]).
Proof.
  intros Hvalid.
  assert (Ha : App.predict q [] [App.toplevel] = Ok NoMatchFound [App.toplevel])
    by (rewrite App_predict_run; reflexivity).
  assert (Hl : Labeled.predict q [] [Labeled.toplevel]
               = Ok NoMatchFound [Labeled.toplevel])
    by (rewrite Labeled_predict_run; reflexivity).
  split; [rewrite App_matched_run; reflexivity|].
  split; [exact Ha|].
  split; [rewrite Labeled_matched_run; reflexivity|].
  split; [exact Hl|].
  intros f Hf. unfold Handler.onPredict_app, Handler.onPredict_labeled.
  rewrite Hf, Hvalid. split; assumption.
Qed.

Lemma empty_dataset_no_match_witness :
  missingRequired Scenario.query = false
  /\ App.predict Scenario.query [] [App.toplevel]
     = Ok NoMatchFound [App.toplevel].
Proof.
  split; [reflexivity|].
  apply (empty_dataset_no_match Scenario.query). reflexivity.
Defined.

(** ** Determinism *)

(** C9: the result of the matching code is a function of the query and of
    the rows. Run under two scope chains, whatever they bind, it ends with
    the same record in [match] in both variants and, in the variant with
    label mappings, with the same record, score and flag; running it twice in
    a row gives the same outcome twice. In [app.js] the handler's outcome is
    the same under two scope chains that agree on the name [bestScore]. *)
Theorem matcher_deterministic (q : Query) (rows : list Row) (g1 g2 : scopes) :
  lookup "bestScore" g1 = lookup "bestScore" g2 ->
  outcome_of (App.matched q rows g1) = outcome_of (App.matched q rows g2)
  /\ outcome_of (Labeled.matched q rows g1) = outcome_of (Labeled.matched q rows g2)
  /\ outcome_of (Labeled.predict q rows g1) = outcome_of (Labeled.predict q rows g2)
  /\ outcome_of (App.predict q rows g1) = outcome_of (App.predict q rows g2)
  /\ (exists o, (a <- Labeled.predict q rows ;;
                 b <- Labeled.predict q rows ;; ret (a, b)) g1 = Ok (o, o) g1)
  /\ (exists m, (a <- App.matched q rows ;;
                 b <- App.matched q rows ;; ret (a, b)) g1 = Ok (m, m) g1).
Proof.
  intros Hg.
  rewrite !App_matched_run, !Labeled_matched_run, !Labeled_predict_run,
    !App_predict_run, Hg.
  repeat (split; [reflexivity|]).
  split.
  - destruct (selected q rows); [destruct (lookup "bestScore" g2)|]; reflexivity.
  - split.
    + exists (labeled_outcome q rows). unfold bind.
      rewrite !Labeled_predict_run. reflexivity.
    + exists (of_best (selected q rows)). unfold bind.
      rewrite !App_matched_run. reflexivity.
Qed.

Lemma matcher_deterministic_witness :
  lookup "bestScore" [App.toplevel] = lookup "bestScore" [Labeled.toplevel]
  /\ outcome_of (Labeled.predict Scenario.query Scenario.dataset [App.toplevel])
     = outcome_of (Labeled.predict Scenario.query Scenario.dataset [Labeled.toplevel]).
Proof.
  split; [reflexivity|].
  apply (matcher_deterministic Scenario.query Scenario.dataset
           [App.toplevel] [Labeled.toplevel]).
  reflexivity.
Defined.

(** ** The record comes from the dataset *)

(** C10: when the matching code ends, [match] is null or a record that
    occurs in the rows, and the enclosing scopes are as they were; an
    outcome that carries a record carries one of the rows. The rows are a
    value the code only reads. *)
Theorem matched_record_in_dataset (q : Query) (rows : list Row) (g : scopes) :
  (exists m, App.matched q rows g = Ok m g
             /\ (m = BNull \/ exists r, m = BRow r /\ In r rows))
  /\ (exists m, Labeled.matched q rows g = Ok m g
                /\ (m = BNull \/ exists r, m = BRow r /\ In r rows))
  /\ (exists o, Labeled.predict q rows g = Ok o g
                /\ (o = NoMatchFound
                    \/ exists r s e, o = Matched (BRow r) s e /\ In r rows))
  /\ (forall m s e g', App.predict q rows g = Ok (Matched m s e) g' ->
                       exists r, m = BRow r /\ In r rows).
Proof.
  rewrite App_matched_run, Labeled_matched_run, Labeled_predict_run,
    App_predict_run.
  assert (Hsel : of_best (selected q rows) = BNull
                 \/ exists r, of_best (selected q rows) = BRow r /\ In r rows).
  { destruct (selected q rows) as [r|] eqn:E; [right|left; reflexivity].
    exists r. split; [reflexivity|]. now apply (selected_In q rows). }
  split; [eexists; split; [reflexivity|exact Hsel]|].
  split; [eexists; split; [reflexivity|exact Hsel]|].
  split.
  - eexists; split; [reflexivity|]. unfold labeled_outcome.
    destruct (find (exactPredicate q) rows) as [r|] eqn:E.
    + right. exists r, 0, true. split; [reflexivity|]. apply (find_some _ _ E).
    + destruct (nearest q rows) as [[r|] s] eqn:En; [right|left; reflexivity].
      exists r, s, (negb (0 <? s)). split; [reflexivity|].
      apply (nearest_In q). now rewrite En.
  - intros m s e g' H.
    destruct (selected q rows) as [r|] eqn:E; [|discriminate].
    destruct (lookup "bestScore" g); [|discriminate].
    injection H as <- _ _ _. exists r. split; [reflexivity|].
    now apply (selected_In q rows).
Qed.

(** ** The score *)

(** Where the query's value is [NaN] the script divides by 1 and the
    specification by [NaN]; the quotient is [NaN] either way. *)
Lemma relative_difference (a x : float) :
  abs (a - x) / or_num x 1 = abs (a - x) / denominator x.
Proof.
  unfold or_num, truthy_num, denominator.
  destruct (x =? 0); [reflexivity|].
  destruct (is_nan x) eqn:E; [|reflexivity].
  apply is_nan_eq in E. subst x. cbn [orb negb].
  now rewrite sub_nan_r, abs_nan, !div_nan_l.
Qed.

(** C3: the score of a record against a query is the sum of the penalties
    5, 5, 3, 3, 2, 2, 1 of the categorical fields that differ and of the
    four weighted numeric terms, the year over the fixed denominator 10 and
    the others over the query's value or 1; replacing Doors and Wheel, in
    the record or in the query, leaves it unchanged. *)
Theorem score_formula (q : Query) (r : Row) :
  score q r = spec_score q r
  /\ (forall d w d' w' : jsval,
        score (query_with_doors_wheel q d w) (row_with_doors_wheel r d' w')
        = score q r).
Proof.
  split; [|reflexivity].
  unfold score, spec_score, penalty, engineDiff, mileageDiff, yearDiff,
    airbagsDiff, engineVolWeight, mileageWeight, yearWeight, airbagsWeight.
  cbv zeta. rewrite !relative_difference.
  destruct (strict_neq (r_Manufacturer r) (q_Manufacturer q)),
    (strict_neq (r_Model r) (q_Model q)),
    (strict_neq (r_Category r) (q_Category q)),
    (strict_neq (r_Fuel_Type r) (q_Fuel_Type q)),
    (strict_neq (r_Gearbox_Type r) (q_Gearbox_Type q)),
    (strict_neq (r_Drive_Wheels r) (q_Drive_Wheels q)),
    (strict_neq (r_Leather_Interior r) (q_Leather_Interior q));
    reflexivity.
Qed.

(** ** The scenario *)

(** On the scenario neither variant ends with the score 0.3: the variant
    with label mappings reports another double, and [app.js] raises. *)
Lemma scenario_score_differs_from_expected :
  outcome_of (Labeled.predict Scenario.query Scenario.dataset [Labeled.toplevel])
  <> inr Scenario.expected
  /\ outcome_of (App.predict Scenario.query Scenario.dataset [App.toplevel])
     <> inr Scenario.expected
  /\ (score Scenario.query Scenario.row =? 0.3) = false.
Proof.
  split; [|split; [|reflexivity]]; intros H.
  - apply (f_equal (fun o => match o with
                             | inr (Matched _ s _) => (s =? 0.3)
                             | _ => true
                             end)) in H.
    vm_compute in H. discriminate.
  - vm_compute in H. discriminate.
Qed.

(** C4, amended: on the scenario the exact pass finds nothing and the
    nearest pass selects the single row with the score that
    [|2015 - 2016| / 10 * 3] has in binary64, 0.30000000000000004, the
    double that follows 0.3; the row's [predicted_price] is 12000 and the
    variant with label mappings reports the match as not exact. *)
Theorem scenario_nearest_match :
  find (exactPredicate Scenario.query) Scenario.dataset = None
  /\ nearest Scenario.query Scenario.dataset
     = (Some Scenario.row, abs (2015 - 2016) / 10 * 3)
  /\ abs (2015 - 2016) / 10 * 3 = 0.30000000000000004
  /\ next_up 0.3 = 0.30000000000000004
  /\ App.matched Scenario.query Scenario.dataset [App.toplevel]
     = Ok (BRow Scenario.row) [App.toplevel]
  /\ Labeled.predict Scenario.query Scenario.dataset [Labeled.toplevel]
     = Ok (Matched (BRow Scenario.row) 0.30000000000000004 false)
          [Labeled.toplevel]
  /\ predicted_price Scenario.row = 12000.
Proof. repeat split; vm_compute; reflexivity. Qed.

(** ** Defaults of the query *)

Lemma find_all_false {A : Type} (f : A -> bool) (l : list A) :
  (forall x, f x = false) -> find f l = None.
Proof.
  intros H. induction l as [|a l IH]; cbn; [reflexivity|]. now rewrite H.
Qed.

(** A query without a number of airbags scores [NaN] against every record
    and equals none exactly. *)
Lemma score_nan_airbags (q : Query) (r : Row) :
  q_Airbags q = NaN -> score q r = NaN /\ exactPredicate q r = false.
Proof.
  intros H. split.
  - unfold score, airbagsDiff. cbv zeta. rewrite H. unfold NaN.
    rewrite sub_nan_r, abs_nan, div_nan_l, mul_nan_l, !add_nan_r. reflexivity.
  - unfold exactPredicate. rewrite H. unfold NaN. rewrite eqb_nan_r.
    now rewrite andb_false_r.
Qed.

Lemma no_match_nan_airbags (q : Query) (rows : list Row) :
  q_Airbags q = NaN -> selected q rows = None /\ labeled_outcome q rows = NoMatchFound.
Proof.
  intros H.
  assert (Hf : find (exactPredicate q) rows = None)
    by (apply find_all_false; intros x; apply (score_nan_airbags q x H)).
  assert (Hn : nearest q rows = (None, Infinity)).
  { apply fold_step_keeps. intros x _.
    destruct (score_nan_airbags q x H) as [-> _]. apply ltb_nan_l. }
  unfold selected, labeled_outcome. now rewrite Hf, Hn.
Qed.

(** Engine volume and mileage fall back to 0 when the input does not parse
    to a number, or parses to zero. *)
Theorem volume_and_mileage_default (f : Form) :
  (truthy_num (parseFloat (Engine_Volume_value f)) = false ->
   q_Engine_Volume (makeQuery f) = 0)
  /\ (truthy_num (parseInt (Mileage_value f)) = false ->
      q_Mileage (makeQuery f) = 0)
  /\ is_nan (q_Engine_Volume (makeQuery f)) = false
  /\ is_nan (q_Mileage (makeQuery f)) = false.
Proof.
  cbn [makeQuery q_Engine_Volume q_Mileage]. unfold or_num.
  repeat split; try (intros ->; reflexivity).
  - destruct (truthy_num _) eqn:E; [|reflexivity].
    unfold truthy_num in E. rewrite negb_true_iff, orb_false_iff in E. apply E.
  - destruct (truthy_num _) eqn:E; [|reflexivity].
    unfold truthy_num in E. rewrite negb_true_iff, orb_false_iff in E. apply E.
Qed.

(** C6, on both variants: an Airbags or Doors input that does not parse to
    a number puts [NaN] in the query, not 0, and with [NaN] airbags no
    record of any dataset is matched. *)
Theorem airbags_and_doors_do_not_default (f : Form) (rows : list Row) :
  is_nan (parseInt (Airbags_value f)) = true ->
  is_nan (parseInt (Doors_value f)) = true ->
  q_Airbags (makeQuery f) = NaN
  /\ q_Doors (makeQuery f) = JNum NaN
  /\ (q_Airbags (makeQuery f) =? 0) = false
  /\ App.matched (makeQuery f) rows [App.toplevel] = Ok BNull [App.toplevel]
  /\ Labeled.predict (makeQuery f) rows [Labeled.toplevel]
     = Ok NoMatchFound [Labeled.toplevel].
Proof.
  intros Ha Hd. apply is_nan_eq in Ha. apply is_nan_eq in Hd.
  assert (Hq : q_Airbags (makeQuery f) = NaN) by exact Ha.
  destruct (no_match_nan_airbags (makeQuery f) rows Hq) as [Hs Ho].
  rewrite App_matched_run, Labeled_predict_run, Hs, Ho.
  cbn [makeQuery q_Airbags q_Doors]. rewrite Ha, Hd.
  repeat split.
Qed.

Lemma airbags_and_doors_do_not_default_witness :
  is_nan (parseInt (Airbags_value Scenario.form_without_airbags)) = true
  /\ q_Mileage (makeQuery Scenario.form_without_airbags) = 0
  /\ q_Engine_Volume (makeQuery Scenario.form_without_airbags) = 0
  /\ q_Airbags (makeQuery Scenario.form_without_airbags) = NaN
  /\ Handler.onPredict_labeled Scenario.form_without_airbags Scenario.dataset
       [Labeled.toplevel] = Ok NoMatchFound [Labeled.toplevel].
Proof.
  split; [reflexivity|]. split; [reflexivity|]. split; [reflexivity|].
  split.
  - apply (airbags_and_doors_do_not_default Scenario.form_without_airbags
             Scenario.dataset); reflexivity.
  - apply (airbags_and_doors_do_not_default Scenario.form_without_airbags
             Scenario.dataset); reflexivity.
Defined.

(** ** Ties *)

Section Ties.

Variable q : Query.

(** While the rows scanned all score above [m], [bestScore] stays above
    [m]. *)
Lemma fold_step_above (m : float) (rows : list Row) :
  forall acc : option Row * float,
    (m <? snd acc) = true ->
    (forall x, In x rows -> (score q x <? m) = false) ->
    (forall x, In x rows -> (score q x =? m) = false) ->
    (m <? snd (fold_left (step q) rows acc)) = true.
Proof.
  induction rows as [|a rows IH]; intros acc Hacc Hmin Hne; cbn; auto.
  apply IH.
  - unfold step. destruct (score q a <? snd acc) eqn:E; [|assumption].
    cbn [snd]. apply ltb_trichotomy.
    + now apply (ltb_not_nan_l _ _ E).
    + now apply (ltb_not_nan_l _ _ Hacc).
    + apply Hmin. now left.
    + apply Hne. now left.
  - intros x Hx. apply Hmin. now right.
  - intros x Hx. apply Hne. now right.
Qed.

Lemma nearest_first_minimum (l1 l2 : list Row) (r : Row) :
  (score q r <? Infinity) = true ->
  (forall x, In x (l1 ++ r :: l2) -> (score q x <? score q r) = false) ->
  (forall x, In x l1 -> (score q x =? score q r) = false) ->
  nearest q (l1 ++ r :: l2) = (Some r, score q r).
Proof.
  intros Hfin Hmin Hfirst. unfold nearest.
  rewrite fold_left_app. cbn [fold_left].
  assert (Habove : (score q r <? snd (fold_left (step q) l1 (None, Infinity))) = true).
  { apply fold_step_above; auto.
    intros x Hx. apply Hmin. apply in_or_app. now left. }
  unfold step at 2. rewrite Habove.
  apply fold_step_keeps. cbn [snd].
  intros x Hx. apply Hmin. apply in_or_app. right. now right.
Qed.

End Ties.

(** With an engine volume of 1e-320 in the form, the two records of the
    dataset both score Infinity, the minimum over the dataset, and no record
    passes the exact test; the scan keeps none of them, the first no more
    than the second: [best] stays null and "No match found" is reported. *)
Lemma infinite_minimum_no_match :
  find (exactPredicate (makeQuery Scenario.form_tiny_volume))
    [Scenario.row; Scenario.twin] = None
  /\ score (makeQuery Scenario.form_tiny_volume) Scenario.row = Infinity
  /\ score (makeQuery Scenario.form_tiny_volume) Scenario.twin = Infinity
  /\ nearest (makeQuery Scenario.form_tiny_volume) [Scenario.row; Scenario.twin]
     = (None, Infinity)
  /\ App.matched (makeQuery Scenario.form_tiny_volume)
       [Scenario.row; Scenario.twin] [App.toplevel]
     = Ok BNull [App.toplevel]
  /\ Handler.onPredict_labeled Scenario.form_tiny_volume
       [Scenario.row; Scenario.twin] [Labeled.toplevel]
     = Ok NoMatchFound [Labeled.toplevel]
  /\ ~ (forall (q : Query) (l1 l2 : list Row) (r : Row),
          find (exactPredicate q) (l1 ++ r :: l2) = None ->
          (forall x, In x (l1 ++ r :: l2) -> (score q x <? score q r) = false) ->
          (forall x, In x l1 -> (score q x =? score q r) = false) ->
          nearest q (l1 ++ r :: l2) = (Some r, score q r)).
Proof.
  repeat (split; [reflexivity|]).
  intros H.
  specialize (H (makeQuery Scenario.form_tiny_volume) [] [Scenario.twin]
                Scenario.row eq_refl).
  assert (Hn : nearest (makeQuery Scenario.form_tiny_volume)
                 ([] ++ Scenario.row :: [Scenario.twin])
               = (Some Scenario.row,
                  score (makeQuery Scenario.form_tiny_volume) Scenario.row)).
  { apply H.
    - intros x [<-|[<-|[]]]; reflexivity.
    - intros x []. }
  apply (f_equal fst) in Hn. vm_compute in Hn. discriminate Hn.
Qed.

(** C7, amended: in the nearest pass, let [r] be the first record whose
    score equals the minimum over the dataset, a number below the initial
    [bestScore] Infinity: no record scores less and no record before [r]
    scores the same. Then the pass ends with [r] and its score, whatever
    follows [r]. *)
Theorem first_minimum_wins (q : Query) (l1 l2 : list Row) (r : Row) :
  find (exactPredicate q) (l1 ++ r :: l2) = None ->
  (score q r <? Infinity) = true ->
  (forall x, In x (l1 ++ r :: l2) -> (score q x <? score q r) = false) ->
  (forall x, In x l1 -> (score q x =? score q r) = false) ->
  nearest q (l1 ++ r :: l2) = (Some r, score q r)
  /\ App.matched q (l1 ++ r :: l2) [App.toplevel] = Ok (BRow r) [App.toplevel]
  /\ Labeled.predict q (l1 ++ r :: l2) [Labeled.toplevel]
     = Ok (Matched (BRow r) (score q r) (negb (0 <? score q r)))
          [Labeled.toplevel].
Proof.
  intros Hex Hfin Hmin Hfirst.
  pose proof (nearest_first_minimum q l1 l2 r Hfin Hmin Hfirst) as Hn.
  rewrite App_matched_run, Labeled_predict_run.
  unfold selected, labeled_outcome. rewrite Hex, Hn. repeat split.
Qed.

Lemma first_minimum_wins_witness :
  nearest Scenario.query ([Scenario.other_make] ++ Scenario.row :: [Scenario.twin])
  = (Some Scenario.row, score Scenario.query Scenario.row)
  /\ score Scenario.query Scenario.twin = score Scenario.query Scenario.row.
Proof.
  split; [|reflexivity].
  apply (first_minimum_wins Scenario.query [Scenario.other_make]
           [Scenario.twin] Scenario.row).
  - reflexivity.
  - reflexivity.
  - intros x [<-|[<-|[<-|[]]]]; reflexivity.
  - intros x [<-|[]]; reflexivity.
Defined.

(** ** Division by the query's value *)




(** ** Order of binary64 numbers *)

Section Order.

(** The order on mantissa and exponent that [SFcompare] uses for two
    numbers of the same sign. *)
Lemma lex_Lt (e1 e2 : Z) (m1 m2 : positive) :
  match (e1 ?= e2)%Z with
  | Lt => Lt
  | Gt => Gt
  | Eq => Pos.compare_cont Eq m1 m2
  end = Lt <-> (e1 < e2 \/ (e1 = e2 /\ Zpos m1 < Zpos m2))%Z.
Proof.
  change (Pos.compare_cont Eq m1 m2) with (m1 ?= m2)%positive.
  destruct (Z.compare_spec e1 e2), (Pos.compare_spec m1 m2);
    split; intros Hx; try discriminate; try reflexivity; lia.
Qed.

Lemma lex_Gt (e1 e2 : Z) (m1 m2 : positive) :
  match (e1 ?= e2)%Z with
  | Lt => Lt
  | Gt => Gt
  | Eq => Pos.compare_cont Eq m1 m2
  end = Gt <-> (e2 < e1 \/ (e1 = e2 /\ Zpos m2 < Zpos m1))%Z.
Proof.
  change (Pos.compare_cont Eq m1 m2) with (m1 ?= m2)%positive.
  destruct (Z.compare_spec e1 e2), (Pos.compare_spec m1 m2);
    split; intros Hx; try discriminate; try reflexivity; lia.
Qed.

Lemma lex_opp_Lt (e1 e2 : Z) (m1 m2 : positive) :
  match (e1 ?= e2)%Z with
  | Lt => Gt
  | Gt => Lt
  | Eq => CompOpp (Pos.compare_cont Eq m1 m2)
  end = Lt <-> (e2 < e1 \/ (e1 = e2 /\ Zpos m2 < Zpos m1))%Z.
Proof.
  change (Pos.compare_cont Eq m1 m2) with (m1 ?= m2)%positive.
  destruct (Z.compare_spec e1 e2), (Pos.compare_spec m1 m2);
    split; cbn; intros Hx; try discriminate; try reflexivity; lia.
Qed.

Lemma SFcompare_Lt_trans (a b c : spec_float) :
  SFcompare a b = Some Lt -> SFcompare b c = Some Lt -> SFcompare a c = Some Lt.
Proof.
  destruct a as [s1 | s1 | | s1 m1 e1], b as [s2 | s2 | | s2 m2 e2],
    c as [s3 | s3 | | s3 m3 e3];
    try discriminate;
    try (destruct s1, s2, s3; cbn; intros; congruence).
  destruct s1, s2, s3; cbn; intros H1 H2; try discriminate; try reflexivity;
    injection H1 as H1; injection H2 as H2; f_equal.
  - apply lex_opp_Lt. apply lex_opp_Lt in H1. apply lex_opp_Lt in H2. lia.
  - apply lex_Lt. apply lex_Lt in H1. apply lex_Lt in H2. lia.
Qed.

Lemma ltb_trans (a b c : float) :
  (a <? b) = true -> (b <? c) = true -> (a <? c) = true.
Proof.
  rewrite !FloatAxioms.ltb_spec. unfold SFltb. intros H1 H2.
  rewrite (SFcompare_Lt_trans (Prim2SF a) (Prim2SF b) (Prim2SF c)); auto.
  - destruct (SFcompare (Prim2SF a) (Prim2SF b)) as [[ | | ]|]; congruence.
  - destruct (SFcompare (Prim2SF b) (Prim2SF c)) as [[ | | ]|]; congruence.
Qed.

Lemma ltb_irrefl (a : float) : (a <? a) = false.
Proof.
  destruct (a <? a) eqn:E; [|reflexivity].
  rewrite FloatAxioms.ltb_spec in E. unfold SFltb in E.
  pose proof (SFcompare_swap (Prim2SF a) (Prim2SF a)) as H.
  destruct (SFcompare (Prim2SF a) (Prim2SF a)) as [[ | | ]|]; discriminate.
Qed.

(** A number that is not below Infinity is Infinity, or is not a number. *)
Lemma not_below_infinity (x : float) :
  is_nan x = false -> (x <? Infinity) = false -> x = Infinity.
Proof.
  unfold is_nan. rewrite FloatAxioms.eqb_spec, FloatAxioms.ltb_spec, infinity_spec.
  intros Hn H. apply Prim2SF_inj. rewrite infinity_spec.
  destruct (Prim2SF x) as [s | s | | s m e]; try discriminate;
    destruct s; try discriminate; reflexivity.
Qed.

Lemma not_above_neg_infinity (x : float) :
  is_nan x = false -> (neg_infinity <? x) = false -> x = neg_infinity.
Proof.
  unfold is_nan. rewrite FloatAxioms.eqb_spec, FloatAxioms.ltb_spec.
  change (Prim2SF neg_infinity) with (S754_infinity true).
  intros Hn H. apply Prim2SF_inj.
  change (Prim2SF neg_infinity) with (S754_infinity true).
  destruct (Prim2SF x) as [s | s | | s m e]; try discriminate;
    destruct s; try discriminate; reflexivity.
Qed.

End Order.

(** ** The nearest pass finds a minimum *)

Section Minimum.

Variable q : Query.

(** [bestScore] only goes down: a number not below it stays not below. *)
Lemma fold_step_not_below (rows : list Row) :
  forall (acc : option Row * float) (y : float),
    (y <? snd acc) = false ->
    (y <? snd (fold_left (step q) rows acc)) = false.
Proof.
  induction rows as [|a rows IH]; intros acc y Hy; cbn; auto.
  apply IH. unfold step.
  destruct (score q a <? snd acc) eqn:E; [|assumption].
  cbn [snd]. destruct (y <? score q a) eqn:Ey; [|reflexivity].
  now rewrite (ltb_trans _ _ _ Ey E) in Hy.
Qed.

Lemma fold_step_lower_bound (rows : list Row) :
  forall (acc : option Row * float) (x : Row),
    In x rows -> (score q x <? snd (fold_left (step q) rows acc)) = false.
Proof.
  induction rows as [|a rows IH]; intros acc x Hin; [destruct Hin|].
  cbn [fold_left]. destruct Hin as [<-|Hin]; [|now apply IH].
  apply fold_step_not_below. unfold step.
  destruct (score q a <? snd acc) eqn:E; [apply ltb_irrefl|assumption].
Qed.

(** [best], once set, is the record whose score [bestScore] holds, and that
    score is below Infinity; until then [bestScore] is Infinity. *)
Lemma fold_step_consistent (rows : list Row) :
  forall acc : option Row * float,
    match fst acc with
    | Some r => snd acc = score q r /\ (score q r <? Infinity) = true
    | None => snd acc = Infinity
    end ->
    match fst (fold_left (step q) rows acc) with
    | Some r => snd (fold_left (step q) rows acc) = score q r
                /\ (score q r <? Infinity) = true
    | None => snd (fold_left (step q) rows acc) = Infinity
    end.
Proof.
  induction rows as [|a rows IH]; intros acc Hacc; cbn [fold_left]; auto.
  apply IH. unfold step.
  destruct (score q a <? snd acc) eqn:E; [|assumption].
  cbn [fst snd]. split; [reflexivity|].
  destruct (fst acc) as [b|].
  - destruct Hacc as [Hs Hb]. rewrite Hs in E. apply (ltb_trans _ _ _ E Hb).
  - now rewrite Hacc in E.
Qed.

End Minimum.

(** The nearest pass ends with a record that no record of the dataset
    undercuts: no score is below [bestScore], [bestScore] is the score of
    [best], a number below Infinity, and [best] stays null exactly when no
    record scores below Infinity. *)
Theorem nearest_is_minimum (q : Query) (rows : list Row) :
  (forall x, In x rows -> (score q x <? snd (nearest q rows)) = false)
  /\ (forall r, fst (nearest q rows) = Some r ->
                In r rows /\ snd (nearest q rows) = score q r
                /\ (score q r <? Infinity) = true)
  /\ (fst (nearest q rows) = None <->
      forall x, In x rows -> (score q x <? Infinity) = false).
Proof.
  split; [intros x Hx; now apply (fold_step_lower_bound q)|].
  pose proof (fold_step_consistent q rows (None, Infinity) eq_refl) as Hc.
  fold (nearest q rows) in Hc.
  split.
  - intros r Hr. rewrite Hr in Hc. split; [now apply (nearest_In q)|exact Hc].
  - split.
    + intros Hn x Hx. rewrite Hn in Hc. rewrite <- Hc.
      now apply (fold_step_lower_bound q).
    + intros Hall. unfold nearest. now rewrite (fold_step_keeps q).
Qed.

(** The variant with label mappings reports "No match found" exactly when
    no record passes the exact test and no record scores below Infinity. *)
Theorem Labeled_no_match_iff (q : Query) (rows : list Row) (g : scopes) :
  Labeled.predict q rows g = Ok NoMatchFound g <->
  (forall x, In x rows ->
             exactPredicate q x = false /\ (score q x <? Infinity) = false).
Proof.
  rewrite Labeled_predict_run. unfold labeled_outcome.
  destruct (nearest_is_minimum q rows) as (_ & _ & Hnone).
  split.
  - intros H x Hx.
    destruct (find (exactPredicate q) rows) as [r|] eqn:Ef; [discriminate|].
    split; [apply (find_none _ _ Ef x Hx)|].
    destruct (nearest q rows) as [[r|] s] eqn:En; [discriminate|].
    apply Hnone; [reflexivity|assumption].
  - intros H.
    assert (Hf : find (exactPredicate q) rows = None).
    { destruct (find (exactPredicate q) rows) as [r|] eqn:Ef; [|reflexivity].
      destruct (find_some _ _ Ef) as [Hin Hr].
      destruct (H r Hin) as [Hr' _]. congruence. }
    rewrite Hf.
    assert (Hn : fst (nearest q rows) = None)
      by (apply Hnone; intros x Hx; apply (H x Hx)).
    destruct (nearest q rows) as [[r|] s]; [discriminate|reflexivity].
Qed.

(** When no record passes the exact test, the record the variant with label
    mappings reports is a record of the dataset, the score it reports is that
    record's score, a number below Infinity, no record of the dataset scores
    less, and [app.js] ends with the same record in [match]. *)
Theorem nearest_match_is_minimum (q : Query) (rows : list Row) (g : scopes)
    (r : Row) (s : float) (e : bool) :
  find (exactPredicate q) rows = None ->
  Labeled.predict q rows g = Ok (Matched (BRow r) s e) g ->
  In r rows /\ s = score q r /\ (s <? Infinity) = true
  /\ (forall x, In x rows -> (score q x <? s) = false)
  /\ App.matched q rows g = Ok (BRow r) g.
Proof.
  intros Hf. rewrite Labeled_predict_run, App_matched_run.
  unfold labeled_outcome, selected. rewrite Hf.
  destruct (nearest_is_minimum q rows) as (Hlow & Hbest & _).
  destruct (nearest q rows) as [[b|] bs] eqn:En; [|discriminate].
  intros H. injection H as -> -> _.
  destruct (Hbest r eq_refl) as (Hin & Hs & Hfin). cbn [fst snd] in *.
  subst s. repeat split; auto.
Qed.

Lemma nearest_match_is_minimum_witness :
  In Scenario.row [Scenario.other_make; Scenario.row; Scenario.twin]
  /\ (score Scenario.query Scenario.other_make <? score Scenario.query Scenario.row)
     = false.
Proof.
  destruct (nearest_match_is_minimum Scenario.query
              [Scenario.other_make; Scenario.row; Scenario.twin]
              [Labeled.toplevel] Scenario.row 0.30000000000000004 false
              eq_refl eq_refl) as (Hin & _ & _ & Hlow & _).
  split; [exact Hin|]. apply Hlow. left. reflexivity.
Defined.

(** ** Labels *)

Section LabelFacts.

Import Labels.

Lemma all_digits_app_not (p : string) (c : ascii) (d : string) :
  is_digit c = false -> all_digits (p ++ String c d) = false.
Proof.
  intros Hc. induction p as [|a p IH]; cbn.
  - now rewrite Hc.
  - rewrite IH. apply andb_false_r.
Qed.

(** After a character that is not a digit, a run of digits that ends the
    string is what the pattern captures. *)
Lemma trailing_digits_after (p : string) (c : ascii) (a : ascii) (d : string) :
  is_digit c = false -> all_digits (String a d) = true ->
  trailing_digits (p ++ String c (String a d)) = Some (String a d).
Proof.
  intros Hc Hd. induction p as [|b p IH].
  - assert (Hcd : all_digits (String c (String a d)) = false)
      by (cbn [all_digits]; now rewrite Hc).
    cbn [append trailing_digits]. now rewrite Hcd, Hd.
  - cbn [append trailing_digits].
    change (String b (p ++ String c (String a d))%string)
      with (String b p ++ String c (String a d))%string.
    now rewrite all_digits_app_not.
Qed.

Lemma entry_of_code_first (m1 m2 : mapping) (label : string) (c : float) :
  is_nan c = false ->
  (forall e, In e m1 -> strict_eq (snd e) (JNum c) = false) ->
  entry_of_code c (m1 ++ (label, JNum c) :: m2) = Some (label, JNum c).
Proof.
  intros Hc Hm1. unfold entry_of_code.
  induction m1 as [|e m1 IH]; cbn.
  - unfold is_nan in Hc. rewrite negb_false_iff in Hc. now rewrite Hc.
  - rewrite (Hm1 e (or_introl eq_refl)).
    apply IH. intros e' He'. apply Hm1. now right.
Qed.

End LabelFacts.

(** A decoded value is the raw value itself or the label of an entry of the
    field's mapping whose code is the number the raw value carries: the
    number itself, or the digits that end the string. *)
Theorem codeToLabel_sound (mappings : option (list (string * Labels.mapping)))
    (fieldName : string) (rawValue : jsval) :
  Labels.codeToLabel mappings fieldName rawValue = rawValue
  \/ exists all key m label idx code,
       mappings = Some all
       /\ Labels.property fieldName Labels.FIELD_TO_MAPPING_KEY = Some key
       /\ Labels.property key all = Some m
       /\ In (label, idx) m
       /\ strict_eq idx (JNum code) = true
       /\ Labels.codeToLabel mappings fieldName rawValue = JStr label
       /\ (rawValue = JNum code
           \/ exists s digits, rawValue = JStr s
                /\ Labels.trailing_digits s = Some digits
                /\ code = parseInt digits).
Proof.
  unfold Labels.codeToLabel.
  destruct mappings as [all|]; [|now left].
  destruct (Labels.property fieldName Labels.FIELD_TO_MAPPING_KEY) as [key|] eqn:Ek;
    [|now left].
  destruct (Labels.property key all) as [m|] eqn:Em; [|now left].
  assert (Hfind : forall code,
             Labels.entry_of_code code m = None
             \/ exists label idx, Labels.entry_of_code code m = Some (label, idx)
                  /\ In (label, idx) m /\ strict_eq idx (JNum code) = true).
  { intros code. destruct (Labels.entry_of_code code m) as [[label idx]|] eqn:E;
      [right|now left].
    exists label, idx. split; [reflexivity|].
    apply (find_some _ _ E). }
  destruct rawValue as [| |b|x|s]; try now left.
  - destruct (Hfind x) as [->|(label & idx & -> & Hin & Heq)]; [now left|].
    right. exists all, key, m, label, idx, x.
    repeat (split; [solve [auto]|]). now left.
  - destruct (Labels.trailing_digits s) as [digits|] eqn:Ed; [|now left].
    destruct (Hfind (parseInt digits)) as [->|(label & idx & -> & Hin & Heq)];
      [now left|].
    right. exists all, key, m, label, idx, (parseInt digits).
    repeat (split; [solve [auto]|]). right. exists s, digits. auto.
Qed.

(** Decoding inverts the mapping: for a field that has a mapping, the code
    of an entry that no earlier entry shares decodes to the entry's label,
    given as a number or as a string that ends, after a character that is
    not a digit, with the digits of the code. *)
Theorem codeToLabel_decodes (all : list (string * Labels.mapping))
    (fieldName key : string) (m1 m2 : Labels.mapping) (label : string) (c : float) :
  Labels.property fieldName Labels.FIELD_TO_MAPPING_KEY = Some key ->
  Labels.property key all = Some (m1 ++ (label, JNum c) :: m2) ->
  is_nan c = false ->
  (forall e, In e m1 -> strict_eq (snd e) (JNum c) = false) ->
  Labels.codeToLabel (Some all) fieldName (JNum c) = JStr label
  /\ (forall (p : string) (x a : ascii) (d : string),
        Labels.is_digit x = false -> Labels.all_digits (String a d) = true ->
        parseInt (String a d) = c ->
        Labels.codeToLabel (Some all) fieldName
          (JStr (p ++ String x (String a d))) = JStr label).
Proof.
  intros Hk Hm Hc Hm1. unfold Labels.codeToLabel. rewrite Hk, Hm.
  split.
  - now rewrite entry_of_code_first.
  - intros p x a d Hx Hd Hp.
    rewrite (trailing_digits_after p x a d Hx Hd), Hp.
    now rewrite entry_of_code_first.
Qed.

Lemma codeToLabel_decodes_witness :
  Labels.codeToLabel (Some Labels.sample_mappings) "Manufacturer" (JNum 22)
  = JStr "TOYOTA"
  /\ Labels.codeToLabel (Some Labels.sample_mappings) "Manufacturer"
       (JStr "Manufacturer 22") = JStr "TOYOTA".
Proof.
  destruct (codeToLabel_decodes Labels.sample_mappings "Manufacturer"
              "Manufacturer" [("AUDI", JNum 3); ("BMW", JNum 5)] []
              "TOYOTA" 22 eq_refl eq_refl eq_refl) as [Hn Hs].
  - intros e [<-|[<-|[]]]; reflexivity.
  - split; [exact Hn|].
    apply (Hs "Manufacturer" " "%char "2"%char "2"); reflexivity.
Defined.

(** ** Price range *)

Section MinMax.

Import Stats.

Lemma ltb_neg_zero_r (y : float) : (y <? -0) = (y <? 0).
Proof.
  rewrite !FloatAxioms.ltb_spec. change (Prim2SF (-0)) with (S754_zero true).
  rewrite zero_spec. destruct (Prim2SF y); reflexivity.
Qed.

Lemma ltb_neg_zero_l (y : float) : (-0 <? y) = (0 <? y).
Proof.
  rewrite !FloatAxioms.ltb_spec. change (Prim2SF (-0)) with (S754_zero true).
  rewrite zero_spec. destruct (Prim2SF y); reflexivity.
Qed.

(** Without [NaN], a step of [Math.min] keeps the lowest or takes the new
    number, and the outcome is below neither. *)
Lemma min_step_cases (lowest x : float) :
  is_nan lowest = false -> is_nan x = false ->
  (min_step lowest x = lowest \/ min_step lowest x = x)
  /\ (x <? min_step lowest x) = false
  /\ (forall y, (y <? lowest) = false -> (y <? min_step lowest x) = false).
Proof.
  intros Hl Hx. unfold min_step. rewrite Hl, Hx. cbn [orb].
  destruct (PrimFloat.Leibniz.eqb x (-0) && PrimFloat.Leibniz.eqb lowest 0) eqn:Ez.
  - apply andb_true_iff in Ez. destruct Ez as [Ex El].
    apply FloatAxioms.Leibniz.eqb_spec in Ex. apply FloatAxioms.Leibniz.eqb_spec in El.
    subst. split; [now right|]. split; [reflexivity|].
    intros y Hy. now rewrite ltb_neg_zero_r.
  - destruct (x <? lowest) eqn:E.
    + split; [now right|]. split; [apply ltb_irrefl|].
      intros y Hy. destruct (y <? x) eqn:Ey; [|reflexivity].
      now rewrite (ltb_trans _ _ _ Ey E) in Hy.
    + split; [now left|]. split; [assumption|]. auto.
Qed.

Lemma max_step_cases (highest x : float) :
  is_nan highest = false -> is_nan x = false ->
  (max_step highest x = highest \/ max_step highest x = x)
  /\ (max_step highest x <? x) = false
  /\ (forall y, (highest <? y) = false -> (max_step highest x <? y) = false).
Proof.
  intros Hl Hx. unfold max_step. rewrite Hl, Hx. cbn [orb].
  destruct (PrimFloat.Leibniz.eqb x 0 && PrimFloat.Leibniz.eqb highest (-0)) eqn:Ez.
  - apply andb_true_iff in Ez. destruct Ez as [Ex El].
    apply FloatAxioms.Leibniz.eqb_spec in Ex. apply FloatAxioms.Leibniz.eqb_spec in El.
    subst. split; [now right|]. split; [reflexivity|].
    intros y Hy. now rewrite <- ltb_neg_zero_l.
  - destruct (highest <? x) eqn:E.
    + split; [now right|]. split; [apply ltb_irrefl|].
      intros y Hy. destruct (x <? y) eqn:Ey; [|reflexivity].
      now rewrite (ltb_trans _ _ _ E Ey) in Hy.
    + split; [now left|]. split; [assumption|]. auto.
Qed.

(** The common shape of the two folds: [f] is [min_step] with [below a b]
    for [a <? b], or [max_step] with [below a b] for [b <? a]. *)
Variable f : float -> float -> float.
Variable below : float -> float -> bool.
Hypothesis f_cases : forall bound x,
  is_nan bound = false -> is_nan x = false ->
  (f bound x = bound \/ f bound x = x)
  /\ below x (f bound x) = false
  /\ (forall y, below y bound = false -> below y (f bound x) = false).
Hypothesis f_nan : forall bound x,
  is_nan bound = true \/ is_nan x = true -> f bound x = NaN.

Lemma fold_not_nan (l : list float) :
  forall bound, is_nan bound = false ->
    (forall x, In x l -> is_nan x = false) ->
    is_nan (fold_left f l bound) = false
    /\ (fold_left f l bound = bound \/ In (fold_left f l bound) l)
    /\ (forall y, below y bound = false -> below y (fold_left f l bound) = false)
    /\ (forall x, In x l -> below x (fold_left f l bound) = false).
Proof.
  induction l as [|a l IH]; intros bound Hb Hl; cbn [fold_left].
  - repeat split; auto. intros x [].
  - assert (Ha : is_nan a = false) by (apply Hl; now left).
    destruct (f_cases bound a Hb Ha) as (Hcase & Hself & Hmono).
    assert (Hfb : is_nan (f bound a) = false)
      by (destruct Hcase as [->| ->]; assumption).
    destruct (IH (f bound a) Hfb (fun x Hx => Hl x (or_intror Hx)))
      as (Hn & Hatt & Hkeep & Hlow).
    split; [assumption|]. split; [|split].
    + destruct Hatt as [->|Hin]; [|right; now right].
      destruct Hcase as [->| ->]; [now left|right; now left].
    + intros y Hy. apply Hkeep. now apply Hmono.
    + intros x [<-|Hx]; [now apply Hkeep|now apply Hlow].
Qed.

Lemma fold_nan (l : list float) :
  forall bound,
    is_nan bound = true \/ (exists x, In x l /\ is_nan x = true) ->
    fold_left f l bound = NaN.
Proof.
  induction l as [|a l IH]; intros bound H; cbn [fold_left].
  - destruct H as [H|(x & [] & _)]. now apply is_nan_eq.
  - apply IH. destruct H as [H|(x & [<-|Hx] & Hn)].
    + left. rewrite f_nan; auto.
    + left. rewrite f_nan; auto.
    + right. now exists x.
Qed.

End MinMax.

Lemma min_step_nan (bound x : float) :
  is_nan bound = true \/ is_nan x = true -> Stats.min_step bound x = NaN.
Proof.
  unfold Stats.min_step. intros [-> | ->]; [reflexivity|].
  now rewrite orb_true_r.
Qed.

Lemma max_step_nan (bound x : float) :
  is_nan bound = true \/ is_nan x = true -> Stats.max_step bound x = NaN.
Proof.
  unfold Stats.max_step. intros [-> | ->]; [reflexivity|].
  now rewrite orb_true_r.
Qed.

(** When every record has a price, none is below [minPrice] and none is
    above [maxPrice]; with at least one record the two are prices of
    records of the dataset, and [maxPrice] is not below [minPrice]. *)
Theorem price_range_bounds (DATA : Stats.Data) :
  (forall r, In r (Stats.d_rows DATA) -> is_nan (predicted_price r) = false) ->
  Stats.d_rows DATA <> [] ->
  (forall r, In r (Stats.d_rows DATA) ->
     (predicted_price r <? Stats.minPrice (Stats.loadStats DATA)) = false
     /\ (Stats.maxPrice (Stats.loadStats DATA) <? predicted_price r) = false)
  /\ (exists r, In r (Stats.d_rows DATA)
                /\ Stats.minPrice (Stats.loadStats DATA) = predicted_price r)
  /\ (exists r, In r (Stats.d_rows DATA)
                /\ Stats.maxPrice (Stats.loadStats DATA) = predicted_price r)
  /\ (Stats.maxPrice (Stats.loadStats DATA)
      <? Stats.minPrice (Stats.loadStats DATA)) = false.
Proof.
  intros Hprices Hne. cbn [Stats.loadStats Stats.minPrice Stats.maxPrice].
  set (prices := map predicted_price (Stats.d_rows DATA)).
  assert (Hp : forall x, In x prices -> is_nan x = false).
  { intros x Hx. apply in_map_iff in Hx. destruct Hx as (r & <- & Hr). auto. }
  destruct (fold_not_nan Stats.min_step (fun a b => a <? b)
              min_step_cases prices Infinity eq_refl Hp)
    as (_ & Hmin_att & _ & Hmin_low).
  destruct (fold_not_nan Stats.max_step (fun a b => b <? a)
              max_step_cases prices neg_infinity eq_refl Hp)
    as (_ & Hmax_att & _ & Hmax_low).
  fold (Stats.Math_min prices) in *. fold (Stats.Math_max prices) in *.
  assert (Hhead : exists h, In h prices).
  { destruct (Stats.d_rows DATA) as [|r0 l] eqn:E; [congruence|].
    exists (predicted_price r0). now left. }
  destruct Hhead as (h & Hh).
  assert (Hmin_in : In (Stats.Math_min prices) prices).
  { destruct Hmin_att as [Heq|Hin]; [|assumption].
    pose proof (Hmin_low h Hh) as Hl. rewrite Heq in Hl.
    rewrite Heq, <- (not_below_infinity h (Hp h Hh) Hl). assumption. }
  assert (Hmax_in : In (Stats.Math_max prices) prices).
  { destruct Hmax_att as [Heq|Hin]; [|assumption].
    pose proof (Hmax_low h Hh) as Hl. cbn beta in Hl. rewrite Heq in Hl.
    rewrite Heq, <- (not_above_neg_infinity h (Hp h Hh) Hl). assumption. }
  split.
  - intros r Hr. split.
    + apply Hmin_low. now apply in_map.
    + apply (Hmax_low (predicted_price r)). now apply in_map.
  - split; [|split].
    + apply in_map_iff in Hmin_in. destruct Hmin_in as (r & Hr & Hin).
      exists r. auto.
    + apply in_map_iff in Hmax_in. destruct Hmax_in as (r & Hr & Hin).
      exists r. auto.
    + apply (Hmax_low (Stats.Math_min prices) Hmin_in).
Qed.

Lemma price_range_bounds_witness :
  Stats.minPrice (Stats.loadStats
    (Stats.mkData [Scenario.other_make; Scenario.row; Scenario.twin] [] []))
  = 11000
  /\ (Stats.maxPrice (Stats.loadStats
        (Stats.mkData [Scenario.other_make; Scenario.row; Scenario.twin] [] []))
      <? predicted_price Scenario.twin) = false.
Proof.
  split; [reflexivity|].
  destruct (price_range_bounds
              (Stats.mkData [Scenario.other_make; Scenario.row; Scenario.twin] [] []))
    as (Hb & _).
  - intros r [<-|[<-|[<-|[]]]]; reflexivity.
  - discriminate.
  - apply Hb. right. right. left. reflexivity.
Defined.

(** Without records the price range is inverted, from Infinity down to
    -Infinity; with a record whose price is [NaN] both ends are [NaN]. *)
Theorem price_range_degenerate (DATA : Stats.Data) :
  (Stats.d_rows DATA = [] ->
   Stats.totalCars (Stats.loadStats DATA) = 0%nat
   /\ Stats.minPrice (Stats.loadStats DATA) = Infinity
   /\ Stats.maxPrice (Stats.loadStats DATA) = neg_infinity)
  /\ ((exists r, In r (Stats.d_rows DATA) /\ is_nan (predicted_price r) = true) ->
      Stats.minPrice (Stats.loadStats DATA) = NaN
      /\ Stats.maxPrice (Stats.loadStats DATA) = NaN).
Proof.
  cbn [Stats.loadStats Stats.minPrice Stats.maxPrice Stats.totalCars].
  split.
  - intros Hempty. rewrite Hempty. repeat split.
  - intros (r & Hr & Hn). unfold Stats.Math_min, Stats.Math_max.
    rewrite (fold_nan Stats.min_step min_step_nan),
      (fold_nan Stats.max_step max_step_nan); auto;
      right; exists (predicted_price r); split; auto; now apply in_map.
Qed.

Lemma price_range_degenerate_witness :
  (Stats.minPrice (Stats.loadStats (Stats.mkData [] [] [])) = Infinity
   /\ Stats.maxPrice (Stats.loadStats (Stats.mkData [] [] [])) = neg_infinity)
  /\ (Stats.minPrice
        (Stats.loadStats (Stats.mkData [Scenario.row; Scenario.unpriced] [] []))
      = NaN
      /\ Stats.maxPrice
           (Stats.loadStats (Stats.mkData [Scenario.row; Scenario.unpriced] [] []))
         = NaN).
Proof.
  split.
  - destruct (price_range_degenerate (Stats.mkData [] [] [])) as [Hempty _].
    destruct (Hempty eq_refl) as (_ & Hmin & Hmax). split; assumption.
  - destruct (price_range_degenerate
                (Stats.mkData [Scenario.row; Scenario.unpriced] [] []))
      as [_ Hnan].
    apply Hnan. exists Scenario.unpriced. split; [|reflexivity].
    right. left. reflexivity.
Defined.

(** ** A score of zero without an exact match *)

Section ZeroScore.

(** [x] is [+0] or [-0]. *)
Local Abbreviation zero x := (exists s, Prim2SF x = S754_zero s).

Lemma zero_ltb_l (x y : float) : zero x -> (x <? y) = (0 <? y).
Proof.
  intros [s Hs]. rewrite !FloatAxioms.ltb_spec, Hs, zero_spec.
  destruct (Prim2SF y); reflexivity.
Qed.

Lemma zero_eqb (x : float) : zero x -> (x =? 0) = true.
Proof.
  intros [s Hs]. now rewrite FloatAxioms.eqb_spec, Hs, zero_spec.
Qed.

Lemma zero_add (x y : float) : zero x -> zero y -> zero (x + y).
Proof.
  intros [s Hs] [t Ht].
  rewrite FloatAxioms.add_spec, Hs, Ht. destruct s, t; eexists; reflexivity.
Qed.

Lemma zero_mul (x c : float) :
  zero x -> (exists s m e, Prim2SF c = S754_finite s m e) -> zero (x * c).
Proof.
  intros [s Hs] (t & m & e & Hc).
  rewrite FloatAxioms.mul_spec, Hs, Hc. eexists. reflexivity.
Qed.

Lemma zero_div (d : float) :
  (d =? 0) = false -> is_nan d = false -> zero (0 / d).
Proof.
  unfold is_nan.
  rewrite !FloatAxioms.eqb_spec, FloatAxioms.div_spec, zero_spec.
  intros Hd Hn.
  destruct (Prim2SF d) as [s | s | | s m e]; try discriminate;
    eexists; reflexivity.
Qed.

Lemma or_num_divisor (x : float) :
  (or_num x 1 =? 0) = false /\ is_nan (or_num x 1) = false.
Proof.
  unfold or_num, truthy_num.
  destruct (x =? 0) eqn:E0; [split; reflexivity|].
  destruct (is_nan x) eqn:En; [split; reflexivity|].
  cbn [orb negb]. now split.
Qed.

(** The relative difference of a finite number with itself. *)
Lemma zero_self_difference (x : float) :
  finite x = true -> zero (abs (x - x) / or_num x 1).
Proof.
  intros Hx. rewrite (sub_diag_finite x Hx).
  change (abs 0) with 0.
  destruct (or_num_divisor x) as [H0 Hn]. now apply zero_div.
Qed.

Lemma strict_neq_refl (v : jsval) : json_value v = true -> strict_neq v v = false.
Proof. intros H. unfold strict_neq. now rewrite strict_eq_refl. Qed.

(** A record scores zero against its own query, whatever Doors and Wheel
    the query asks for. *)
Lemma zero_score_self (R : Row) (d w : jsval) :
  scored_finite R = true ->
  zero (score (query_with_doors_wheel (queryFrom R) d w) R).
Proof.
  unfold scored_finite. intros H. rewrite !andb_true_iff in H.
  destruct H as [[[[[[[[[[H1 H2] H3] H4] H5] H6] H7] H8] H9] H10] H11].
  unfold score, engineDiff, mileageDiff, yearDiff, airbagsDiff,
    engineVolWeight, mileageWeight, yearWeight, airbagsWeight.
  cbn [query_with_doors_wheel queryFrom q_Manufacturer q_Model
    q_Production_Year q_Category q_Leather_Interior q_Fuel_Type q_Engine_Volume
    q_Mileage q_Gearbox_Type q_Drive_Wheels q_Airbags].
  rewrite !strict_neq_refl by assumption. cbv zeta.
  rewrite (sub_diag_finite _ H10). change (abs 0 / 10 * 3) with 0.
  assert (Z0 : zero 0) by (exists false; reflexivity).
  repeat apply zero_add; try assumption;
    apply zero_mul; try (now apply zero_self_difference);
    do 3 eexists; reflexivity.
Qed.

End ZeroScore.

(** When the dataset holds a record that agrees with the query on every
    scored field, and no record passes the exact test (the record differs in
    Doors or Wheel), the variant with label mappings still reports the match
    as exact: the score it reports is not above zero. *)
Theorem unscored_difference_reported_exact (R : Row) (d w : jsval)
    (rows : list Row) (g : scopes) :
  scored_finite R = true ->
  In R rows ->
  find (exactPredicate (query_with_doors_wheel (queryFrom R) d w)) rows = None ->
  exists r s,
    Labeled.predict (query_with_doors_wheel (queryFrom R) d w) rows g
    = Ok (Matched (BRow r) s true) g
    /\ In r rows /\ (0 <? s) = false.
Proof.
  intros Hfin Hin Hfind.
  set (q := query_with_doors_wheel (queryFrom R) d w) in *.
  pose proof (zero_score_self R d w Hfin) as Hz. fold q in Hz.
  destruct (nearest_is_minimum q rows) as (Hlow & Hbest & Hnone).
  rewrite Labeled_predict_run. unfold labeled_outcome. rewrite Hfind.
  destruct (nearest q rows) as [[r|] s] eqn:En.
  - destruct (Hbest r eq_refl) as (Hr & Hs & _). cbn [fst snd] in *.
    pose proof (Hlow R Hin) as Hle. rewrite (zero_ltb_l _ _ Hz) in Hle.
    exists r, s. rewrite Hle. repeat split; auto.
  - exfalso. destruct Hnone as [Hall _].
    pose proof (Hall eq_refl R Hin) as Hinf.
    rewrite (zero_ltb_l _ _ Hz) in Hinf. discriminate Hinf.
Qed.

Lemma unscored_difference_reported_exact_witness :
  exactPredicate (makeQuery Scenario.form_listed) Scenario.twin = false
  /\ exists r s,
       Handler.onPredict_labeled Scenario.form_listed [Scenario.twin]
         [Labeled.toplevel]
       = Ok (Matched (BRow r) s true) [Labeled.toplevel]
       /\ In r [Scenario.twin] /\ (0 <? s) = false.
Proof.
  split; [reflexivity|].
  apply (unscored_difference_reported_exact Scenario.twin (JNum 4) (JStr "L")
           [Scenario.twin] [Labeled.toplevel]).
  - reflexivity.
  - left. reflexivity.
  - reflexivity.
Defined.

(** ** Loading a sample *)

(** Whatever number is drawn, [loadSampleData] on a dataset without records
    raises [TypeError] at [sample.Manufacturer], and a record it fills the
    form with is a record of the dataset. *)
Theorem loadSampleData_sample (random : float) (rows : list Row) :
  Sample.loadSampleData random [] = Sample.TypeError "Manufacturer"
  /\ (forall r, Sample.loadSampleData random rows = Sample.Filled r -> In r rows).
Proof.
  unfold Sample.loadSampleData, Sample.element. split.
  - destruct (Sample.array_index _) as [i|]; [|reflexivity].
    cbn [List.length Z.of_nat].
    destruct (i <? 0)%Z; [|reflexivity].
    now destruct (Z.to_nat i).
  - intros r.
    destruct (Sample.array_index _) as [i|]; [|discriminate].
    destruct (i <? Z.of_nat (List.length rows))%Z; [|discriminate].
    destruct (nth_error rows (Z.to_nat i)) as [x|] eqn:E; [|discriminate].
    intros H. injection H as <-. apply (nth_error_In _ _ E).
Qed.

Lemma Labeled_exactness_witness :
  exists l1 r l2,
    [Scenario.other_make; Scenario.listed] = l1 ++ r :: l2
    /\ (forall z, In z l1 -> exactPredicate (queryFrom Scenario.listed) z = false)
    /\ exactPredicate (queryFrom Scenario.listed) r = true
    /\ (r = Scenario.listed \/ In Scenario.listed l2)
    /\ Labeled.predict (queryFrom Scenario.listed)
         [Scenario.other_make; Scenario.listed] [Labeled.toplevel]
       = Ok (Matched (BRow r) 0 true) [Labeled.toplevel].
Proof.
  apply (Labeled_exactness [Scenario.other_make; Scenario.listed]
           Scenario.listed [Labeled.toplevel]).
  - right. left. reflexivity.
  - reflexivity.
Defined.
